(** * ZKsig JavaScript SDK: a shallow embedding of the agreement protocol

    The SDK is glue between four collaborators: an ethers [Signer], the
    tweetnacl secret box, the IPFS pinning endpoints and the DigitalSignature
    smart contract.  Every SDK function is embedded as a program over the
    requests it sends to those collaborators; running a program against a
    [World] (one answer per request) yields the log of requests that were
    issued and the value the function returned or the error it threw.

    Conventions of the embedding:
    - a [Uint8Array] or [Buffer] is a list of bytes, a JavaScript string a
      [string] (its bytes are the string's characters);
    - [number] arguments (pages, page sizes, indexes, chain ids) are integers
      in the range where a JavaScript number is exact: there the arithmetic of
      the SDK is exact and a number prints as its decimal digits; a
      [BigNumber] is an [N];
    - an optional property or argument is an [option], [None] standing for
      [undefined];
    - a collaborator answers a request with a value or rejects it with an
      error; it answers the same request the same way within one [World];
    - the branches of a [Promise.all] are logged one after the other, in the
      order of the array. *)

From Stdlib Require Import List String Ascii ZArith NArith Lia Bool.
From Stdlib Require Import DecimalString.
From Stdlib.Strings Require Import Byte.
Import ListNotations.
Local Open Scope string_scope.
Local Open Scope list_scope.

(** ** JavaScript values used by the SDK *)

(** [Uint8Array] and [Buffer]. *)
Definition bytes := list byte.

(** [new Uint8Array(n)]: [n] zero bytes. *)
Definition Uint8Array_new (n : nat) : bytes := repeat x00 n.

(** [b.slice(0, n)]: the first [n] bytes, all of [b] when it is shorter. *)
Definition Uint8Array_slice0 (b : bytes) (n : nat) : bytes := firstn n b.

(** [Buffer.from(s)]: the bytes of the string. *)
Definition Buffer_from (s : string) : bytes := list_byte_of_string s.

(** [x || d] on an optional string: [undefined] and the empty string are
    falsy. *)
Definition or_else (x : option string) (d : string) : string :=
  match x with
  | Some s => if (s =? "")%string then d else s
  | None => d
  end.

Definition truthy (x : option string) : bool :=
  match x with
  | Some s => negb (s =? "")%string
  | None => false
  end.

(** [`${n}`] for an integer [n] of the exact range: its decimal digits, with
    a minus sign when it is negative. *)
Definition Number_toString (n : Z) : string := NilZero.string_of_int (Z.to_int n).

(** [constants.AddressZero] of ethers. *)
Definition AddressZero : string := "0x0000000000000000000000000000000000000000".

(** A thrown [Error] or a rejected promise, with its message. *)
Inductive exn : Type := Error (message : string).

Inductive result (A : Type) : Type :=
| Ok (a : A)
| Err (e : exn).
Arguments Ok {A} a.
Arguments Err {A} e.

(** ** types.ts *)
Module types.

Record Profile : Type := {
  totalAgreements : N;
  totalSignatures : N
}.

Record SignatureConstraint : Type := {
  sc_identifier : string;
  sc_signer : string;
  sc_totalUsed : N;
  sc_allowedToUse : N (* set to 0 for unlimited *)
}.

Record Agreement : Type := {
  owner : string;
  status : Z;
  index : N;
  identifier : string;
  cid : string;
  encryptedCid : string;
  descriptionCid : string;
  signedPackets : Z;
  totalPackets : Z;
  constraints : list SignatureConstraint;
  agreementCallback : string;
  signatureCallback : string
}.

Record SignaturePacket : Type := {
  sp_agreementOwner : string;
  sp_agreementIndex : N;
  sp_index : N;
  sp_identifier : string;
  sp_encryptedCid : string;
  sp_signer : string;
  sp_timestamp : Z;
  sp_blockNumber : Z
}.

End types.
Import types.

(** ** Handles of the collaborators *)

Inductive Provider : Type := ProviderRef (endpoint : nat).

(** An ethers [Signer]: the account it signs for and its [provider]
    property, [None] for a signer that is connected to no provider. *)
Inductive Signer : Type := SignerRef (account : nat) (provider : option Provider).

Definition signer_account (s : Signer) : nat :=
  match s with SignerRef account _ => account end.

Definition signer_provider (s : Signer) : option Provider :=
  match s with SignerRef _ provider => provider end.

(** An ethers [Contract]: its address and what it is connected to. *)
Record Contract : Type := {
  contract_address : string;
  contract_signer : option Signer;
  contract_provider : option Provider
}.

(** The object literal of one constraint handed to [contract.createAgreement];
    [None] is a field left [undefined]. *)
Record ConstraintInput : Type := {
  ci_identifier : string;
  ci_signer : string;
  ci_totalUsed : Z;
  ci_allowedToUse : option Z
}.

Record CreateAgreementParams : Type := {
  ca_identifier : string;
  ca_cid : string;
  ca_encryptedCid : string;
  ca_descriptionCid : string;
  ca_constraints : list ConstraintInput;
  ca_agreementCallback : string;
  ca_signatureCallback : string;
  ca_extraInfo : bytes
}.

Record SignParams : Type := {
  sg_identifier : string;
  sg_encryptedCid : string;
  sg_agreementOwner : string;
  sg_agreementIndex : N;
  sg_extraInfo : bytes
}.

Inductive TransactionResponse : Type := Tx (hash : string).

(** What [wait(confirmations)] of a transaction resolves to. *)
Inductive TransactionReceipt : Type := Receipt (hash : string) (confirmations : Z).

(** The [Response] of [fetch]: its [ok] flag and the bytes of its body
    ([arrayBuffer()]). *)
Record Response : Type := {
  ok : bool;
  arrayBuffer : bytes
}.

(** EIP-712 typed data as passed to [_signTypedData]. *)
Inductive TypedValue : Type :=
| TString (s : string)
| TUint (n : N).

Record TypedDataField : Type := { td_name : string; td_type : string }.

Definition TypedDataDomain := list (string * string).
Definition TypedDataTypes := list (string * list TypedDataField).
Definition TypedDataValue := list (string * TypedValue).

(** One signature field of a [ZKsigAgreement] description, as
    [createAgreement] destructures it; [None] is a property that is absent. *)
Record SignatureField : Type := {
  sf_identifier : string;
  sf_allowedToUse : option Z;
  sf_signer : option string
}.

(** A [ZKsigAgreement]: the class is used through [getIdentifier()],
    [getDescription()] and the asynchronous [getCID()] and [toBytes()]. *)
Record ZKsigAgreement : Type := {
  zk_object : nat;
  getIdentifier : string;
  getDescription : list SignatureField
}.

(** The description entries of contract.ts. *)
Record FieldGroup : Type := {
  fg_identifier : string;
  fg_fields : list string
}.

(** [UnixFS] options and the dag-pb node given to [codec.encode]. *)
Record UnixFS : Type := {
  type : string;
  data : bytes
}.

Record PBNode (Link : Type) : Type := {
  Data : bytes;
  Links : list Link
}.
Arguments Data {Link} _.
Arguments Links {Link} _.

(** ** The pure libraries

    ipfs-unixfs, @ipld/dag-pb, multiformats, ipfs-car, [JSON.stringify] and
    the address check of ethers are deterministic functions of their
    arguments; the SDK only composes them, so they are an interface here.
    [isAddress] is [utils.isAddress]: whether [utils.getAddress] takes the
    text for an address (40 hexadecimal digits with a valid checksum, or an
    ICAP address); the empty string is none.  [Contract_new_error] is the
    error that [new Contract] throws for an address that is none when there
    is no provider to resolve it as a name ("provider is required to use ENS
    name as contract address"): the logger of ethers builds its text, with
    the operation, the error code and the version of the library. *)
Class Libraries : Type := {
  CID : Type;
  MultihashDigest : Type;
  PBLink : Type;
  UnixFS_marshal : UnixFS -> bytes;
  codec_code : Z;
  codec_encode : PBNode PBLink -> bytes;
  sha256_digest : bytes -> MultihashDigest;
  CID_create : Z -> Z -> MultihashDigest -> CID;
  CID_toV1 : CID -> CID;
  CID_toString : CID -> string;
  packToBlob : bytes -> CID * bytes;
  JSON_stringify_fields : list SignatureField -> string;
  JSON_stringify_groups : list FieldGroup -> string;
  isAddress : string -> bool;
  isAddress_empty : isAddress "" = false;
  Contract_new_error : exn
}.

(** ** The contract objects of ethers *)

(** The provider a contract takes from its optional signer. *)
Definition provider_of (signer : option Signer) : option Provider :=
  match signer with
  | Some s => signer_provider s
  | None => None
  end.

Section Ethers.
Context {L : Libraries}.

(** [new Contract(addressOrName, abi, signer)] of ethers 5, with an optional
    signer.  The contract takes the provider of its signer.  With a provider
    the name is resolved later, when a call is made; without one the
    constructor checks that the text is an address, and throws when it is
    not. *)
Definition Contract_new (addressOrName : string) (signer : option Signer)
    : result Contract :=
  let provider := provider_of signer in
  match provider with
  | Some _ =>
      Ok {| contract_address := addressOrName; contract_signer := signer;
            contract_provider := provider |}
  | None =>
      if isAddress addressOrName
      then Ok {| contract_address := addressOrName; contract_signer := signer;
                 contract_provider := None |}
      else Err Contract_new_error
  end.

(** [contract.connect(signer)]: [new Contract(contract.address, abi, signer)];
    the receiver is left as it was. *)
Definition connect_signer (c : Contract) (s : Signer) : result Contract :=
  Contract_new (contract_address c) (Some s).

End Ethers.

(** [contract.connect(provider)]: a new contract on the provider, which
    resolves the address when a call is made; the receiver is left as it
    was. *)
Definition connect_provider (c : Contract) (p : Provider) : Contract :=
  {| contract_address := contract_address c; contract_signer := None;
     contract_provider := Some p |}.

(** ** Requests to the collaborators *)

Inductive Request : Type :=
| signer_getAddress (s : Signer)
| signer_signMessage (s : Signer) (message : string)
| signer_signTypedData (s : Signer) (domain : TypedDataDomain)
    (types : TypedDataTypes) (value : TypedDataValue)
| nacl_secretbox (msg nonce key : bytes)
| nacl_secretbox_open (box nonce key : bytes)
| fetch_get (url : string)
| fetch_post (url : string) (file : bytes) (name : string)
| contract_getProfile (c : Contract)
| contract_getAgreements (c : Contract) (address : string) (offset limit : Z)
| contract_getSignatures (c : Contract) (address : string) (offset limit : Z)
| contract_createAgreement (c : Contract) (params : CreateAgreementParams)
| contract_sign (c : Contract) (params : SignParams)
| agreement_getCID (a : ZKsigAgreement)
| agreement_toBytes (a : ZKsigAgreement).

Section Programs.
Context {L : Libraries}.

(** What a request resolves to. *)
Definition Resp (r : Request) : Type :=
  match r with
  | signer_getAddress _ => string
  | signer_signMessage _ _ => string
  | signer_signTypedData _ _ _ _ => string
  | nacl_secretbox _ _ _ => bytes
  | nacl_secretbox_open _ _ _ => option bytes
  | fetch_get _ => Response
  | fetch_post _ _ _ => Response
  | contract_getProfile _ => Profile
  | contract_getAgreements _ _ _ _ => list Agreement
  | contract_getSignatures _ _ _ _ => list SignaturePacket
  | contract_createAgreement _ _ => TransactionResponse
  | contract_sign _ _ => TransactionResponse
  | agreement_getCID _ => CID
  | agreement_toBytes _ => bytes
  end.

(** A program: it returns, throws, or sends a request and continues with
    the answer (a value, or the error the collaborator raised). *)
Inductive Prog (A : Type) : Type :=
| Ret (a : A)
| Throw (e : exn)
| Call (r : Request) (k : result (Resp r) -> Prog A).
Arguments Ret {A} a.
Arguments Throw {A} e.
Arguments Call {A} r k.

Fixpoint bind {A B : Type} (p : Prog A) (f : A -> Prog B) : Prog B :=
  match p with
  | Ret a => f a
  | Throw e => Throw e
  | Call r k => Call r (fun x => bind (k x) f)
  end.

(** A settled promise awaited: its value is returned, its rejection
    rethrown. *)
Definition of_result {A : Type} (x : result A) : Prog A :=
  match x with
  | Ok a => Ret a
  | Err e => Throw e
  end.

(** [await request] *)
Definition call (r : Request) : Prog (Resp r) := Call r of_result.

(** A started promise settles on its own: its outcome is a value. *)
Fixpoint settle {A : Type} (p : Prog A) : Prog (result A) :=
  match p with
  | Ret a => Ret (Ok a)
  | Throw e => Ret (Err e)
  | Call r k => Call r (fun x => settle (k x))
  end.

(** [await Promise.all([p, q])]: both promises are started, whatever the
    other does; the first rejected one, in array order, rejects the whole. *)
Definition Promise_all2 {A B : Type} (p : Prog A) (q : Prog B) : Prog (A * B) :=
  bind (settle p) (fun x =>
  bind (settle q) (fun y =>
  bind (of_result x) (fun a =>
  bind (of_result y) (fun b => Ret (a, b))))).

Definition Promise_all3 {A B C : Type} (p : Prog A) (q : Prog B) (r : Prog C)
  : Prog (A * B * C) :=
  bind (settle p) (fun x =>
  bind (settle q) (fun y =>
  bind (settle r) (fun z =>
  bind (of_result x) (fun a =>
  bind (of_result y) (fun b =>
  bind (of_result z) (fun c => Ret (a, b, c))))))).

(** The collaborators: one answer per request. *)
Definition World : Type := forall r : Request, result (Resp r).

(** Running a program: the requests it issued, in order, and its outcome. *)
Fixpoint run {A : Type} (w : World) (p : Prog A) : list Request * result A :=
  match p with
  | Ret a => ([], Ok a)
  | Throw e => ([], Err e)
  | Call r k => let (t, x) := run w (k (w r)) in (r :: t, x)
  end.

Definition trace {A : Type} (w : World) (p : Prog A) : list Request := fst (run w p).
Definition outcome {A : Type} (w : World) (p : Prog A) : result A := snd (run w p).

End Programs.

Arguments Ret {L A} a.
Arguments Throw {L A} e.
Arguments Call {L A} r k.

Declare Scope prog_scope.
Delimit Scope prog_scope with prog.
Notation "x <- p ;; q" := (bind p (fun x => q))
  (at level 61, p at next level, right associativity) : prog_scope.
Notation "' pat <- p ;; q" := (bind p (fun x => match x with pat => q end))
  (at level 61, pat pattern, p at next level, right associativity) : prog_scope.
Local Open Scope prog_scope.

(** ** files.ts *)
Module files.
Section files.
Context {L : Libraries}.

Definition downloadAndDecrypt (cid : string) (encryptionPWBytes : bytes) : Prog bytes :=
  res <- call (fetch_get ("https://w3s.link/ipfs/" ++ cid)) ;;
  if negb (ok res) then Throw (Error "Could not fetch agreement from IPFS")
  else
    pdf <- call (nacl_secretbox_open (arrayBuffer res) (Uint8Array_new 24)
                   (Uint8Array_slice0 encryptionPWBytes 32)) ;;
    match pdf with
    | None => Throw (Error "Agreement decryption failed")
    | Some pdf => Ret pdf
    end.

Definition pinFile (file : bytes) (name : string) : Prog string :=
  let (root, car) := packToBlob file in
  res <- call (fetch_post "/api/upload" car name) ;;
  if negb (ok res) then Throw (Error "Unable to pin file to IPFS")
  else Ret (CID_toString (CID_toV1 root)).

Definition encryptAgreementAndPin (pdf : bytes) (name : string)
    (encryptionPWBytes : bytes) : Prog string :=
  encrypted <- call (nacl_secretbox pdf (Uint8Array_new 24)
                       (Uint8Array_slice0 encryptionPWBytes 32)) ;;
  pinFile encrypted name.

End files.
End files.

(** ** encrypt.ts *)
Module encrypt.
Section encrypt.
Context {L : Libraries}.

Definition domain : TypedDataDomain :=
  [("name", "ZKsig Digital Signatures"); ("version", "1")].

Definition encryptionTypes : TypedDataTypes :=
  [("Agreement",
    [ {| td_name := "Owner Address"; td_type := "address" |};
      {| td_name := "Agreement Identifier"; td_type := "string" |};
      {| td_name := "CID"; td_type := "string" |} ])].

(** The [agreement] argument is a [Pick<Agreement, "owner" | "identifier" |
    "cid">]: the three fields are the arguments. *)
Definition getAgreementEncryptionMessage (signer : Signer)
    (agreement_owner agreement_identifier agreement_cid : string) : Prog bytes :=
  msg <- call (signer_signTypedData signer domain encryptionTypes
                 [("Owner Address", TString agreement_owner);
                  ("Agreement Identifier", TString agreement_identifier);
                  ("CID", TString agreement_cid)]) ;;
  Ret (Buffer_from msg).

End encrypt.
End encrypt.

(** ** contract.ts *)
Module contract.
Section contract.
Context {L : Libraries}.

(** [new Contract("", DigitalSignature.abi)] has neither a signer nor a
    provider: the constructor checks the empty address before [connect] is
    reached. *)
Definition getContractWithProvider (provider : Provider) : result Contract :=
  match Contract_new "" None with
  | Ok contract => Ok (connect_provider contract provider)
  | Err e => Err e
  end.

Definition getContractWithSigner (signer : Signer) : result Contract :=
  match Contract_new "" None with
  | Ok contract => connect_signer contract signer
  | Err e => Err e
  end.

Definition getProfile (signer : Signer) : Prog Profile :=
  contract <- of_result (getContractWithSigner signer) ;;
  call (contract_getProfile contract).

(** [perPage = 10] when the option is left out. *)
Definition getAgreements (provider : Provider) (address : string) (page : Z)
    (perPage : option Z) : Prog (list Agreement) :=
  let perPage := match perPage with Some n => n | None => 10%Z end in
  contract <- of_result (getContractWithProvider provider) ;;
  call (contract_getAgreements contract address ((page - 1) * perPage) perPage).

(** [const [agreement] = ...]: the first element, [undefined] ([None]) for an
    empty page. *)
Definition getAgreement (provider : Provider) (address : string) (index : Z)
    : Prog (option Agreement) :=
  l <- getAgreements provider address (index + 1) (Some 1%Z) ;;
  Ret (hd_error l).

Definition getSignatures (provider : Provider) (address : string) (page : Z)
    (perPage : option Z) : Prog (list SignaturePacket) :=
  let perPage := match perPage with Some n => n | None => 10%Z end in
  contract <- of_result (getContractWithProvider provider) ;;
  call (contract_getSignatures contract address ((page - 1) * perPage) perPage).

Definition getSignature (provider : Provider) (address : string) (index : Z)
    : Prog (option SignaturePacket) :=
  l <- getSignatures provider address (index + 1) (Some 1%Z) ;;
  Ret (hd_error l).

(** [contract.createAgreement({...}).wait(1)]: the call on the contract
    returns a promise, which is not awaited; [wait] is looked up on the
    promise, where it is [undefined], so calling it throws a [TypeError]
    once the transaction has been started. *)
Definition createAgreement (signer : Signer) (identifier : string) (pdf : bytes)
    (description : list FieldGroup) : Prog TransactionReceipt :=
  contract <- of_result (getContractWithSigner signer) ;;
  address <- call (signer_getAddress signer) ;;
  sig <- call (signer_signMessage signer ("Encrypt PDF for " ++ identifier)) ;;
  let pw := Buffer_from sig in
  let data := {| type := "file"; data := pdf |} in
  let cid := CID_create 0 codec_code
               (sha256_digest (codec_encode {| Data := UnixFS_marshal data; Links := [] |})) in
  let constraints :=
    map (fun d => {| ci_identifier := fg_identifier d;
                     ci_signer := AddressZero;
                     ci_totalUsed := 0;
                     ci_allowedToUse := Some 1%Z |}) description in
  '(encryptedCid, descriptionCid) <-
    Promise_all2
      (files.encryptAgreementAndPin pdf (address ++ " - " ++ identifier) pw)
      (files.pinFile (Buffer_from (JSON_stringify_groups description))
         ("Description: " ++ address ++ " - " ++ identifier)) ;;
  _ <- settle (call (contract_createAgreement contract
                       {| ca_identifier := identifier;
                          ca_cid := CID_toString (CID_toV1 cid);
                          ca_encryptedCid := encryptedCid;
                          ca_descriptionCid := descriptionCid;
                          ca_constraints := constraints;
                          ca_agreementCallback := AddressZero;
                          ca_signatureCallback := AddressZero;
                          ca_extraInfo := Buffer_from "" |})) ;;
  Throw (Error "contract.createAgreement(...).wait is not a function").

Definition sign (signer : Signer) (agreement : Agreement) (identifier : string)
    (pdf : bytes) : Prog TransactionReceipt :=
  contract <- of_result (getContractWithSigner signer) ;;
  address <- call (signer_getAddress signer) ;;
  sig <- call (signer_signMessage signer ("Encrypt PDF for " ++ identifier)) ;;
  let pw := Buffer_from sig in
  encryptedCid <- files.encryptAgreementAndPin pdf (address ++ " - " ++ identifier) pw ;;
  _ <- settle (call (contract_sign contract
                       {| sg_identifier := identifier;
                          sg_encryptedCid := encryptedCid;
                          sg_agreementOwner := owner agreement;
                          sg_agreementIndex := index agreement;
                          sg_extraInfo := Buffer_from "" |})) ;;
  Throw (Error "contract.sign(...).wait is not a function").

End contract.
End contract.

(** ** ZKsigDigitalSignatureContract.ts *)
Module ZKsigDigitalSignatureContract.

Record t : Type := {
  _contractAddress : string;
  _contract : Contract
}.

Record ZKsigDigitalSignatureContractOptions : Type := {
  opt_address : option string;
  opt_chainId : option Z;
  opt_signer : option Signer
}.

(** [contractAddresses[chainId]]: the address of a known chain, [undefined]
    for any other key. *)
Definition contractAddresses (chainId : option Z) : option string :=
  match chainId with
  | Some n =>
      if (n =? 80001)%Z then Some "0xf08b4ddA8581FcA449A58d4225D804043B71AA5c"
      else if (n =? 11155111)%Z then Some "0x18Aa4DCADdC1B3df2BbEBfB99407CDfa4b7282A9"
      else if (n =? 31415)%Z then Some "0x0C8a04faB35dc3239AC4e88F26903CF46Bd0bA47"
      else None
  | None => None
  end.

(** [new ZKsigDigitalSignatureContract(options)]: the instance, or the error
    thrown, the one of the constructor or the one of [new Contract].
    [`${options.chainId}`] prints [undefined] for a missing chain id. *)
Definition constructor {L : Libraries} (options : ZKsigDigitalSignatureContractOptions)
    : result t :=
  let _contractAddress :=
    if truthy (opt_address options) then opt_address options
    else contractAddresses (opt_chainId options) in
  if negb (truthy _contractAddress) then
    Err (Error ("Unable to initialize ZKsigDigitalSignatureContract. Invalid chainId "
                ++ match opt_chainId options with
                   | Some n => Number_toString n
                   | None => "undefined"
                   end))
  else
    match Contract_new (or_else _contractAddress "") (opt_signer options) with
    | Ok contract =>
        Ok {| _contractAddress := or_else _contractAddress ""; _contract := contract |}
    | Err e => Err e
    end.

Section methods.
Context {L : Libraries}.
Variable this : t.

(** [this._contract.connect(signer)] builds a connected copy, or throws, and
    the method drops the copy: whatever the call does, the instance keeps the
    contract it had.  [setSigner] is the instance after the call,
    [setSigner_outcome] what the call returns or throws. *)
Definition setSigner (signer : Signer) : t :=
  let _ := connect_signer (_contract this) signer in
  this.

Definition setSigner_outcome (signer : Signer) : result unit :=
  match connect_signer (_contract this) signer with
  | Ok _ => Ok tt
  | Err e => Err e
  end.

Definition _readyCheck : Prog unit :=
  match contract_signer (_contract this) with
  | None => Throw (Error "Use `setSigner` to set an ethers Signer before using contract")
  | Some _ => Ret tt
  end.

(** [this._contract.signer] where a method is called on it. *)
Definition this_signer : Prog Signer :=
  match contract_signer (_contract this) with
  | Some s => Ret s
  | None => Throw (Error "Cannot read properties of null")
  end.

Definition getAgreementEncryptionMessage (agreement : Agreement) : Prog bytes :=
  _ <- _readyCheck ;;
  signer <- this_signer ;;
  encrypt.getAgreementEncryptionMessage signer
    (owner agreement) (identifier agreement) (cid agreement).

Definition getProfile : Prog Profile :=
  _ <- _readyCheck ;;
  call (contract_getProfile (_contract this)).

(** [address || (await this._contract.signer.getAddress())] *)
Definition address_or_signer (address : option string) : Prog string :=
  if truthy address then Ret (or_else address "")
  else
    signer <- this_signer ;;
    call (signer_getAddress signer).

Definition getAgreements (address : option string) (page perPage : Z)
    : Prog (list Agreement) :=
  _ <- _readyCheck ;;
  address <- address_or_signer address ;;
  call (contract_getAgreements (_contract this) address ((page - 1) * perPage) perPage).

Definition getAgreement (address : option string) (index : Z)
    : Prog (option Agreement) :=
  _ <- _readyCheck ;;
  l <- getAgreements address (index + 1) 1 ;;
  Ret (hd_error l).

(** [if (!pw)]: only a missing argument is falsy, a [Uint8Array] never is. *)
Definition getAgreementPDF (agreement : Agreement) (pw : option bytes) : Prog bytes :=
  pw <- match pw with
        | None => getAgreementEncryptionMessage agreement
        | Some pw => Ret pw
        end ;;
  files.downloadAndDecrypt (encryptedCid agreement) pw.

Definition getSignatures (address : option string) (page perPage : Z)
    : Prog (list SignaturePacket) :=
  _ <- _readyCheck ;;
  address <- address_or_signer address ;;
  call (contract_getSignatures (_contract this) address ((page - 1) * perPage) perPage).

Definition getSignature (address : option string) (index : Z)
    : Prog (option SignaturePacket) :=
  _ <- _readyCheck ;;
  l <- getSignatures address (index + 1) 1 ;;
  Ret (hd_error l).

(** [packet] is a [Pick<SignaturePacket, "encryptedCid">]. *)
Definition getSignaturePDF (agreement : Agreement) (packet_encryptedCid : string)
    : Prog bytes :=
  pw <- getAgreementEncryptionMessage agreement ;;
  files.downloadAndDecrypt packet_encryptedCid pw.

(** The constraint list built from [agreement.getDescription()]. *)
Definition constraints_of (description : list SignatureField) : list ConstraintInput :=
  map (fun d => {| ci_identifier := sf_identifier d;
                   ci_allowedToUse := sf_allowedToUse d;
                   ci_signer := or_else (sf_signer d) AddressZero;
                   ci_totalUsed := 0 |}) description.

Definition createAgreement (agreement : ZKsigAgreement) : Prog TransactionResponse :=
  _ <- _readyCheck ;;
  '(address, cid, pdf) <-
    Promise_all3
      (signer <- this_signer ;; call (signer_getAddress signer))
      (call (agreement_getCID agreement))
      (call (agreement_toBytes agreement)) ;;
  signer <- this_signer ;;
  pw <- encrypt.getAgreementEncryptionMessage signer
          address (getIdentifier agreement) (CID_toString (CID_toV1 cid)) ;;
  let constraints := constraints_of (getDescription agreement) in
  '(encryptedCid, descriptionCid) <-
    Promise_all2
      (files.encryptAgreementAndPin pdf
         (address ++ " - " ++ getIdentifier agreement) pw)
      (files.pinFile (Buffer_from (JSON_stringify_fields (getDescription agreement)))
         ("Description: " ++ address ++ " - " ++ getIdentifier agreement)) ;;
  call (contract_createAgreement (_contract this)
          {| ca_identifier := getIdentifier agreement;
             ca_cid := CID_toString (CID_toV1 cid);
             ca_encryptedCid := encryptedCid;
             ca_descriptionCid := descriptionCid;
             ca_constraints := constraints;
             ca_agreementCallback := AddressZero;
             ca_signatureCallback := AddressZero;
             ca_extraInfo := Buffer_from "" |}).

Definition sign (agreement : Agreement) (identifier : string) (pdf : bytes)
    : Prog TransactionResponse :=
  _ <- _readyCheck ;;
  signer <- this_signer ;;
  '(address, pw) <-
    Promise_all2
      (call (signer_getAddress signer))
      (encrypt.getAgreementEncryptionMessage signer
         (owner agreement) (types.identifier agreement) (cid agreement)) ;;
  encryptedCid <-
    files.encryptAgreementAndPin pdf
      ("Signature - " ++ address ++ " - " ++ identifier ++ " on "
         ++ types.identifier agreement) pw ;;
  call (contract_sign (_contract this)
          {| sg_identifier := identifier;
             sg_encryptedCid := encryptedCid;
             sg_agreementOwner := owner agreement;
             sg_agreementIndex := index agreement;
             sg_extraInfo := Buffer_from "" |}).

End methods.
End ZKsigDigitalSignatureContract.

(** ** unnamed/part_000: the earlier revision of the class

    It differs from ZKsigDigitalSignatureContract.ts in [createAgreement] and
    [sign] (and has none of [getAgreementEncryptionMessage], [getAgreementPDF],
    [getSignaturePDF]); the other members are the same text. *)
Module part_000.
Import ZKsigDigitalSignatureContract.
Section methods.
Context {L : Libraries}.
Variable this : ZKsigDigitalSignatureContract.t.

Definition AgreementSigner : TypedDataTypes :=
  [("AgreementSigner",
    [ {| td_name := "Owner Address"; td_type := "address" |};
      {| td_name := "Agreement Identifier"; td_type := "string" |};
      {| td_name := "Agreement Index"; td_type := "uint256" |};
      {| td_name := "Signer Identifier"; td_type := "string" |} ])].

Definition createAgreement (agreement : ZKsigAgreement) : Prog TransactionResponse :=
  _ <- _readyCheck this ;;
  '(address, pw, pdf) <-
    Promise_all3
      (signer <- this_signer this ;; call (signer_getAddress signer))
      (signer <- this_signer this ;;
       call (signer_signMessage signer ("Encrypt PDF for " ++ getIdentifier agreement)))
      (call (agreement_toBytes agreement)) ;;
  let data := {| type := "file"; data := pdf |} in
  let cid := CID_create 0 codec_code
               (sha256_digest (codec_encode {| Data := UnixFS_marshal data; Links := [] |})) in
  let constraints := constraints_of (getDescription agreement) in
  '(encryptedCid, descriptionCid) <-
    Promise_all2
      (files.encryptAgreementAndPin pdf
         (address ++ " - " ++ getIdentifier agreement) (Buffer_from pw))
      (files.pinFile (Buffer_from (JSON_stringify_fields (getDescription agreement)))
         ("Description: " ++ address ++ " - " ++ getIdentifier agreement)) ;;
  call (contract_createAgreement (_contract this)
          {| ca_identifier := getIdentifier agreement;
             ca_cid := CID_toString (CID_toV1 cid);
             ca_encryptedCid := encryptedCid;
             ca_descriptionCid := descriptionCid;
             ca_constraints := constraints;
             ca_agreementCallback := AddressZero;
             ca_signatureCallback := AddressZero;
             ca_extraInfo := Buffer_from "" |}).

Definition sign (agreement : Agreement) (identifier : string) (pdf : bytes)
    : Prog TransactionResponse :=
  _ <- _readyCheck this ;;
  signer <- this_signer this ;;
  '(address, pw) <-
    Promise_all2
      (call (signer_getAddress signer))
      (call (signer_signTypedData signer [] AgreementSigner
               [("Owner Address", TString (owner agreement));
                ("Agreement Identifier", TString (types.identifier agreement));
                ("Agreement Index", TUint (index agreement));
                ("Signer Identifier", TString identifier)])) ;;
  encryptedCid <-
    files.encryptAgreementAndPin pdf
      ("Signature - " ++ address ++ " - " ++ identifier ++ " on "
         ++ types.identifier agreement) (Buffer_from pw) ;;
  call (contract_sign (_contract this)
          {| sg_identifier := identifier;
             sg_encryptedCid := encryptedCid;
             sg_agreementOwner := owner agreement;
             sg_agreementIndex := index agreement;
             sg_extraInfo := Buffer_from "" |}).

End methods.
End part_000.

(** ** What a log of requests shows *)

(** The records handed to [contract.createAgreement]. *)
Definition submitted_agreements (t : list Request) : list CreateAgreementParams :=
  flat_map (fun r => match r with
                     | contract_createAgreement _ p => [p]
                     | _ => []
                     end) t.



(** Nonces and keys of the secret-box calls, encryption and decryption. *)
Definition secretbox_nonces (t : list Request) : list bytes :=
  flat_map (fun r => match r with
                     | nacl_secretbox _ n _ => [n]
                     | nacl_secretbox_open _ n _ => [n]
                     | _ => []
                     end) t.

Definition secretbox_keys (t : list Request) : list bytes :=
  flat_map (fun r => match r with
                     | nacl_secretbox _ _ k => [k]
                     | nacl_secretbox_open _ _ k => [k]
                     | _ => []
                     end) t.

(** Offset and limit of the list calls on the smart contract. *)
Definition page_requests (t : list Request) : list (Z * Z) :=
  flat_map (fun r => match r with
                     | contract_getAgreements _ _ offset limit => [(offset, limit)]
                     | contract_getSignatures _ _ offset limit => [(offset, limit)]
                     | _ => []
                     end) t.



(** The records handed to [contract.sign]. *)
Definition submitted_signatures (t : list Request) : list SignParams :=
  flat_map (fun r => match r with
                     | contract_sign _ p => [p]
                     | _ => []
                     end) t.

(** The files posted to the upload endpoint. *)
Definition uploaded_files (t : list Request) : list bytes :=
  flat_map (fun r => match r with
                     | fetch_post _ file _ => [file]
                     | _ => []
                     end) t.


(** A secret-box call with the all-zero 24-byte nonce, or another request. *)
Definition fixed_nonce (r : Request) : Prop :=
  match r with
  | nacl_secretbox _ n _ => n = Uint8Array_new 24
  | nacl_secretbox_open _ n _ => n = Uint8Array_new 24
  | _ => True
  end.

(** The typed-data request of encrypt.ts for an agreement of owner [o],
    identifier [i] and content identifier [c]. *)
Definition encryption_request (s : Signer) (o i c : string) : Request :=
  signer_signTypedData s encrypt.domain encrypt.encryptionTypes
    [("Owner Address", TString o);
     ("Agreement Identifier", TString i);
     ("CID", TString c)].

(** The address the constructor of the class settles on: the one given,
    when it is not empty, or else the one of the chain. *)
Definition chosen_address (options : ZKsigDigitalSignatureContract.ZKsigDigitalSignatureContractOptions)
    (a : string) : Prop :=
  (ZKsigDigitalSignatureContract.opt_address options = Some a /\ a <> "") \/
  (truthy (ZKsigDigitalSignatureContract.opt_address options) = false /\
   ZKsigDigitalSignatureContract.contractAddresses
     (ZKsigDigitalSignatureContract.opt_chainId options) = Some a).

(** A [createAgreement] call on the contract whose record satisfies [Q], or
    another request. *)
Definition submits (Q : CreateAgreementParams -> Prop) (r : Request) : Prop :=
  match r with
  | contract_createAgreement _ p => Q p
  | _ => True
  end.

(** A secret-box call with key [k], or another request. *)
Definition keyed (k : bytes) (r : Request) : Prop :=
  match r with
  | nacl_secretbox _ _ k' => k' = k
  | nacl_secretbox_open _ _ k' => k' = k
  | _ => True
  end.

Section Contracts.
Context {L : Libraries}.

(** The method threw the error of [_readyCheck] and sent nothing. *)
Definition refused {A : Type} (w : World) (p : Prog A) : Prop :=
  run w p =
  ([], Err (Error "Use `setSigner` to set an ethers Signer before using contract")).

(** The contract of tweetnacl's secret box: with a 24-byte nonce and a
    32-byte key, [secretbox] returns a box that [secretbox.open] opens to the
    message under the same nonce and key. *)
Definition secretbox_correct (w : World) : Prop :=
  forall (m n k : bytes), List.length n = 24%nat -> List.length k = 32%nat ->
    exists c, w (nacl_secretbox m n k) = Ok c /\
              w (nacl_secretbox_open c n k) = Ok (Some m).

(** [address || (await this._contract.signer.getAddress())] is [a]: the
    address given, or else the one the signer [s] answers. *)
Definition listed_address (w : World) (s : Signer) (address : option string)
    (a : string) : Prop :=
  (truthy address = true /\ a = or_else address "") \/
  (truthy address = false /\ w (signer_getAddress s) = Ok a).

(** The upload endpoint accepts the archive of [file] under [name]. *)
Definition accepted (w : World) (file : bytes) (name : string) : Prop :=
  exists res, w (fetch_post "/api/upload" (snd (packToBlob file)) name) = Ok res /\
              ok res = true.

(** The gateway serves [file] under the identifier [pinFile] returns for
    it. *)
Definition served (w : World) (file : bytes) : Prop :=
  exists res,
    w (fetch_get ("https://w3s.link/ipfs/" ++ CID_toString (CID_toV1 (fst (packToBlob file)))))
      = Ok res /\
    ok res = true /\ arrayBuffer res = file.

(** The gateway serves the box that the secret box seals over [m] under the
    fixed nonce and the key [k]: one file, not every file. *)
Definition serves_sealed (w : World) (m k : bytes) : Prop :=
  forall sealed, w (nacl_secretbox m (Uint8Array_new 24) k) = Ok sealed -> served w sealed.

(** The signer returns signatures of 32 characters or more (an ethers
    signature is a hexadecimal text of 132), enough to fill a key. *)
Definition signatures_fill_key (w : World) : Prop :=
  (forall s message sig,
     w (signer_signMessage s message) = Ok sig ->
     (32 <= List.length (Buffer_from sig))%nat) /\
  (forall s domain types value sig,
     w (signer_signTypedData s domain types value) = Ok sig ->
     (32 <= List.length (Buffer_from sig))%nat).

(** The key [k] is the first 32 bytes of the text of a signature the signer
    gave. *)
Definition key_of_signature (w : World) (k : bytes) : Prop :=
  (exists s message sig,
     w (signer_signMessage s message) = Ok sig /\ k = firstn 32 (Buffer_from sig)) \/
  (exists s domain types value sig,
     w (signer_signTypedData s domain types value) = Ok sig /\
     k = firstn 32 (Buffer_from sig)).

(** The file [f] is the archive of a box the secret box sealed over [pdf]
    with the fixed nonce. *)
Definition sealed_archive (w : World) (pdf f : bytes) : Prop :=
  exists k sealed,
    w (nacl_secretbox pdf (Uint8Array_new 24) k) = Ok sealed /\
    f = snd (packToBlob sealed).

(** The content identifier in the words of the specification: the bytes as
    a single-block UnixFS file node without links, encoded with dag-pb,
    hashed with SHA-256, the identifier normalised to version 1 and printed. *)
Definition identify (B : bytes) : string :=
  let node := {| Data := UnixFS_marshal {| type := "file"; data := B |}; Links := [] |} in
  let digest := sha256_digest (codec_encode node) in
  CID_toString (CID_toV1 (CID_create 0 codec_code digest)).

End Contracts.

(** ** Slot descriptions *)

(** A slot description as the caller supplies it: the signer and the number
    of uses are optional. *)
Record SlotDescription : Type := {
  sd_identifier : string;
  sd_signer : option string;
  sd_allowedToUse : option Z
}.

(** Modelled from the spec: the description a [ZKsigAgreement] holds for the
    slot descriptions it was given.  ZKsigAgreement.ts is not among the
    sources; the specification gives a slot description
    [{identifier, signer?, allowedToUse?}] the defaults signer = wildcard and
    allowedToUse = 1.  [createAgreement] applies the first itself, on what
    [getDescription()] returns, and passes [allowedToUse] on as it is: the
    second default is applied here, and the signer is kept as it was
    given. *)
Definition described (slots : list SlotDescription) : list SignatureField :=
  map (fun d => {| sf_identifier := sd_identifier d;
                   sf_allowedToUse := Some (match sd_allowedToUse d with
                                            | Some n => n
                                            | None => 1%Z
                                            end);
                   sf_signer := sd_signer d |}) slots.



(** ** ConstraintValidator *)
Module ConstraintValidator.

Inductive Reason : Type := NoSuchSlot | WrongSigner | ExhaustedSlot.

Inductive Decision : Type :=
| Authorized (updatedConstraint : SignatureConstraint)
| Denied (reason : Reason).

Definition used_once_more (c : SignatureConstraint) : SignatureConstraint :=
  {| sc_identifier := sc_identifier c;
     sc_signer := sc_signer c;
     sc_totalUsed := sc_totalUsed c + 1;
     sc_allowedToUse := sc_allowedToUse c |}.

(** Modelled from the spec: the validator [authorize] of section 4.5, which
    the sources do not contain (types.ts declares the [SignatureConstraint]
    it works on).  The first constraint named [slotIdentifier] is located;
    a non-wildcard signer must be the proposed one; a nonzero [allowedToUse]
    must not be reached; the grant carries [totalUsed] plus one. *)
Definition authorize (constraints : list SignatureConstraint)
    (slotIdentifier signer : string) : Decision :=
  match find (fun c => (sc_identifier c =? slotIdentifier)%string) constraints with
  | None => Denied NoSuchSlot
  | Some c =>
      if negb (sc_signer c =? AddressZero)%string && negb (sc_signer c =? signer)%string
      then Denied WrongSigner
      else if negb (sc_allowedToUse c =? 0)%N && (sc_allowedToUse c <=? sc_totalUsed c)%N
      then Denied ExhaustedSlot
      else Authorized (used_once_more c)
  end.

(** Modelled from the spec: the ledger commits the update the validator
    computed, in place of the constraint of that name. *)
Definition commit (constraints : list SignatureConstraint)
    (updated : SignatureConstraint) : list SignatureConstraint :=
  map (fun c => if (sc_identifier c =? sc_identifier updated)%string then updated else c)
      constraints.

(** [n] signatures in a row on one slot by one signer, each authorized
    against the constraints the previous one left; [None] once one is
    denied. *)
Fixpoint sign_times (n : nat) (constraints : list SignatureConstraint)
    (slotIdentifier signer : string) : option (list SignatureConstraint) :=
  match n with
  | O => Some constraints
  | S n' =>
      match authorize constraints slotIdentifier signer with
      | Authorized c => sign_times n' (commit constraints c) slotIdentifier signer
      | Denied _ => None
      end
  end.

End ConstraintValidator.

(** ** A small instance to run the SDK on

    Stand-ins for the libraries and the collaborators, simple enough to
    evaluate: digests and identifiers are the bytes themselves, a signature
    is a text built from the signed message, the secret box seals a message
    by prefixing the key, the store serves what was pinned, the ledger
    accepts every transaction. *)
Module Sample.
Local Open Scope string_scope.

Fixpoint drop (n : nat) (s : string) : string :=
  match n, s with
  | S n', String _ s' => drop n' s'
  | _, _ => s
  end.

Fixpoint bytes_eqb (a b : bytes) : bool :=
  match a, b with
  | [], [] => true
  | x :: a', y :: b' => Byte.eqb x y && bytes_eqb a' b'
  | _, _ => false
  end.

Definition show_value (v : TypedDataValue) : string :=
  fold_right (fun f acc => match snd f with
                           | TString s => (s ++ "|" ++ acc)%string
                           | TUint _ => ("#|" ++ acc)%string
                           end) ""%string v.

#[local] Instance libraries : Libraries := {|
  CID := bytes;
  MultihashDigest := bytes;
  PBLink := unit;
  UnixFS_marshal := fun u => (Buffer_from (type u) ++ data u)%list;
  codec_code := 112;
  codec_encode := fun n => Data n;
  sha256_digest := fun b => b;
  CID_create := fun _ _ d => d;
  CID_toV1 := fun c => c;
  CID_toString := string_of_list_byte;
  packToBlob := fun file => (file, file);
  JSON_stringify_fields := fun l => concat "," (map sf_identifier l);
  JSON_stringify_groups := fun l => concat "," (map fg_identifier l);
  isAddress := fun a => (String.length a =? 42)%nat;
  isAddress_empty := eq_refl;
  Contract_new_error :=
    Error "provider is required to use ENS name as contract address"
|}.

(** A signer of a browser wallet, which has a provider, and a wallet that
    was given none. *)
Definition alice : Signer := SignerRef 0 (Some (ProviderRef 0)).

Definition offline : Signer := SignerRef 1 None.

(** Each account signs with its own key: a signature starts with a mark of
    the account. *)
Definition text_mark (s : Signer) : string :=
  if (signer_account s =? 0)%nat then "0x5a17/" else "0x9c04/".

Definition typed_mark (s : Signer) : string :=
  if (signer_account s =? 0)%nat then "0x7d/" else "0x3b/".

Definition address_of (s : Signer) : string :=
  if (signer_account s =? 0)%nat then "0xa96bb1719fa7f78b8B2d3c24BBc79e52Ae9a3988"
  else "0x5B38Da6a701c568545dCfcB03FcB875f56beddC4".

Definition world : World := fun r =>
  match r as r0 return result (Resp r0) with
  | signer_getAddress s => Ok (address_of s)
  | signer_signMessage s m =>
      Ok (text_mark s ++ m ++ "/e3b0c44298fc1c149afbf4c8996fb924")
  | signer_signTypedData s _ _ v =>
      Ok (typed_mark s ++ show_value v ++ "/e3b0c44298fc1c149afbf4c8996fb924")
  | nacl_secretbox m n k =>
      if negb (List.length k =? 32)%nat then Err (Error "bad key size")
      else if negb (List.length n =? 24)%nat then Err (Error "bad nonce size")
      else Ok (k ++ m)%list
  | nacl_secretbox_open c n k =>
      if negb (List.length k =? 32)%nat then Err (Error "bad key size")
      else if negb (List.length n =? 24)%nat then Err (Error "bad nonce size")
      else Ok (if bytes_eqb (firstn 32 c) k then Some (skipn 32 c) else None)
  | fetch_get url =>
      Ok {| ok := true; arrayBuffer := list_byte_of_string (drop 22 url) |}
  | fetch_post _ _ _ => Ok {| ok := true; arrayBuffer := [] |}
  | contract_getProfile _ => Ok {| totalAgreements := 0; totalSignatures := 0 |}
  | contract_getAgreements _ _ _ _ => Ok []
  | contract_getSignatures _ _ _ _ => Ok []
  | contract_createAgreement _ _ => Ok (Tx "0x01")
  | contract_sign _ _ => Ok (Tx "0x02")
  | agreement_getCID _ => Ok (Buffer_from "bafy-lease")
  | agreement_toBytes a =>
      Ok (if (zk_object a =? 0)%nat then Buffer_from "%PDF-1.7 lease" else [])
  end.

(** A store that has nothing: every fetch answers 404. *)
Definition world_without_store : World := fun r =>
  match r as r0 return result (Resp r0) with
  | fetch_get _ => Ok {| ok := false; arrayBuffer := [] |}
  | r0 => world r0
  end.

(** A secret box that refuses every sealing. *)
Definition world_without_box : World := fun r =>
  match r as r0 return result (Resp r0) with
  | nacl_secretbox _ _ _ => Err (Error "bad key size")
  | r0 => world r0
  end.

(** The instance built for chain 80001 with the signer [alice], and the one
    built without a signer. *)
Definition connected : ZKsigDigitalSignatureContract.t :=
  {| ZKsigDigitalSignatureContract._contractAddress :=
       "0xf08b4ddA8581FcA449A58d4225D804043B71AA5c";
     ZKsigDigitalSignatureContract._contract :=
       {| contract_address := "0xf08b4ddA8581FcA449A58d4225D804043B71AA5c";
          contract_signer := Some alice;
          contract_provider := Some (ProviderRef 0) |} |}.

Definition unconnected : ZKsigDigitalSignatureContract.t :=
  {| ZKsigDigitalSignatureContract._contractAddress :=
       "0xf08b4ddA8581FcA449A58d4225D804043B71AA5c";
     ZKsigDigitalSignatureContract._contract :=
       {| contract_address := "0xf08b4ddA8581FcA449A58d4225D804043B71AA5c";
          contract_signer := None;
          contract_provider := None |} |}.


(** The slot of the README: [employee], with neither a signer nor a number
    of uses. *)
Definition employee : SlotDescription :=
  {| sd_identifier := "employee"; sd_signer := None; sd_allowedToUse := None |}.

(** The agreement of the README, with that one slot. *)
Definition lease : ZKsigAgreement :=
  {| zk_object := 0;
     getIdentifier := "lease";
     getDescription := described [employee] |}.

(** An agreement over the empty document. *)
Definition blank : ZKsigAgreement :=
  {| zk_object := 1;
     getIdentifier := "blank";
     getDescription := described [employee] |}.

(** The same agreement as the ledger returns it once created. *)
Definition lease_on_chain : Agreement :=
  {| owner := "0xa96bb1719fa7f78b8B2d3c24BBc79e52Ae9a3988";
     status := 0;
     index := 0;
     identifier := "lease";
     cid := "bafy-lease";
     encryptedCid := "";
     descriptionCid := "";
     signedPackets := 0;
     totalPackets := 1;
     constraints :=
       [ {| sc_identifier := "employee"; sc_signer := AddressZero;
            sc_totalUsed := 0; sc_allowedToUse := 1 |} ];
     agreementCallback := AddressZero;
     signatureCallback := AddressZero |}.

(** The agreement as the ledger returns it once the earlier revision of the
    class created it: its content identifier is the one computed from the
    bytes. *)
Definition lease_of_part_000 : Agreement :=
  {| owner := "0xa96bb1719fa7f78b8B2d3c24BBc79e52Ae9a3988";
     status := 0;
     index := 0;
     identifier := "lease";
     cid := "file%PDF-1.7 lease";
     encryptedCid := "0x5a17/Encrypt PDF for lease/e3b%PDF-1.7 lease";
     descriptionCid := "employee";
     signedPackets := 0;
     totalPackets := 1;
     constraints :=
       [ {| sc_identifier := "employee"; sc_signer := AddressZero;
            sc_totalUsed := 0; sc_allowedToUse := 1 |} ];
     agreementCallback := AddressZero;
     signatureCallback := AddressZero |}.

(** The slot of that agreement as the ledger holds it, used [used] times. *)
Definition employee_slot (used : N) : SignatureConstraint :=
  {| sc_identifier := "employee"; sc_signer := AddressZero;
     sc_totalUsed := used; sc_allowedToUse := 1 |}.

(** The agreement with the identifier of the encrypted document that the
    sample store gave at creation. *)
Definition lease_stored : Agreement :=
  {| owner := "0xa96bb1719fa7f78b8B2d3c24BBc79e52Ae9a3988";
     status := 0;
     index := 0;
     identifier := "lease";
     cid := "bafy-lease";
     encryptedCid := "0x7d/0xa96bb1719fa7f78b8B2d3c24B%PDF-1.7 lease";
     descriptionCid := "employee";
     signedPackets := 0;
     totalPackets := 1;
     constraints :=
       [ {| sc_identifier := "employee"; sc_signer := AddressZero;
            sc_totalUsed := 1; sc_allowedToUse := 1 |} ];
     agreementCallback := AddressZero;
     signatureCallback := AddressZero |}.

Definition pdf : bytes := Buffer_from "%PDF-1.7 lease".

Definition signature : bytes :=
  Buffer_from "0x5a17/Encrypt PDF for lease/e3b0c44298fc1c149afbf4c8996fb924".

End Sample.

(** * Properties *)

(** ** Running programs *)

Section RunLemmas.
Context {L : Libraries}.
Variable w : World.

Lemma run_bind {A B : Type} (p : Prog A) (f : A -> Prog B) :
  run w (bind p f) =
  match outcome w p with
  | Ok a => (trace w p ++ trace w (f a), outcome w (f a))
  | Err e => (trace w p, Err e)
  end.
Proof.
  unfold trace, outcome.
  induction p as [a | e | r k IH]; simpl.
  - destruct (run w (f a)); reflexivity.
  - reflexivity.
  - rewrite IH. destruct (run w (k (w r))) as [t [a | e]]; reflexivity.
Qed.

Lemma trace_bind {A B : Type} (p : Prog A) (f : A -> Prog B) :
  trace w (bind p f) =
  trace w p ++ match outcome w p with Ok a => trace w (f a) | Err _ => [] end.
Proof.
  unfold trace at 1. rewrite run_bind.
  destruct (outcome w p); simpl; auto using app_nil_r.
Qed.

Lemma outcome_bind {A B : Type} (p : Prog A) (f : A -> Prog B) :
  outcome w (bind p f) =
  match outcome w p with Ok a => outcome w (f a) | Err e => Err e end.
Proof.
  unfold outcome at 1. rewrite run_bind.
  destruct (outcome w p); reflexivity.
Qed.

Lemma run_trace_outcome {A : Type} (p : Prog A) : run w p = (trace w p, outcome w p).
Proof. unfold trace, outcome. destruct (run w p); reflexivity. Qed.

Lemma trace_Call {A : Type} (r : Request) (k : result (Resp r) -> Prog A) :
  trace w (Call r k) = r :: trace w (k (w r)).
Proof. unfold trace; simpl. destruct (run w (k (w r))); reflexivity. Qed.

Lemma outcome_Call {A : Type} (r : Request) (k : result (Resp r) -> Prog A) :
  outcome w (Call r k) = outcome w (k (w r)).
Proof. unfold outcome; simpl. destruct (run w (k (w r))); reflexivity. Qed.


Lemma outcome_call (r : Request) : outcome w (call r) = w r.
Proof. unfold outcome, call; simpl. destruct (w r); reflexivity. Qed.

Lemma trace_settle {A : Type} (p : Prog A) : trace w (settle p) = trace w p.
Proof.
  unfold trace. induction p as [a | e | r k IH]; simpl; auto.
  specialize (IH (w r)).
  destruct (run w (settle (k (w r)))), (run w (k (w r))); simpl in *; congruence.
Qed.

Lemma outcome_settle {A : Type} (p : Prog A) :
  outcome w (settle p) = Ok (outcome w p).
Proof.
  unfold outcome. induction p as [a | e | r k IH]; simpl; auto.
  specialize (IH (w r)).
  destruct (run w (settle (k (w r)))), (run w (k (w r))); simpl in *; congruence.
Qed.

Lemma trace_of_result {A : Type} (x : result A) : trace w (of_result x) = [].
Proof. destruct x; reflexivity. Qed.

Lemma outcome_of_result {A : Type} (x : result A) : outcome w (of_result x) = x.
Proof. destruct x; reflexivity. Qed.

Lemma trace_Promise_all2 {A B : Type} (p : Prog A) (q : Prog B) :
  trace w (Promise_all2 p q) = trace w p ++ trace w q.
Proof.
  unfold Promise_all2.
  rewrite trace_bind, trace_settle, outcome_settle.
  rewrite trace_bind, trace_settle, outcome_settle.
  rewrite trace_bind, trace_of_result, outcome_of_result.
  destruct (outcome w p); simpl; [|now rewrite app_nil_r].
  rewrite trace_bind, trace_of_result, outcome_of_result.
  destruct (outcome w q); simpl; now rewrite app_nil_r.
Qed.

Lemma outcome_Promise_all2 {A B : Type} (p : Prog A) (q : Prog B) :
  outcome w (Promise_all2 p q) =
  match outcome w p, outcome w q with
  | Ok a, Ok b => Ok (a, b)
  | Err e, _ => Err e
  | Ok _, Err e => Err e
  end.
Proof.
  unfold Promise_all2.
  rewrite outcome_bind, outcome_settle.
  rewrite outcome_bind, outcome_settle.
  rewrite outcome_bind, outcome_of_result.
  destruct (outcome w p); simpl; auto.
  rewrite outcome_bind, outcome_of_result.
  destruct (outcome w q); reflexivity.
Qed.

Lemma trace_Promise_all3 {A B C : Type} (p : Prog A) (q : Prog B) (r : Prog C) :
  trace w (Promise_all3 p q r) = trace w p ++ trace w q ++ trace w r.
Proof.
  unfold Promise_all3.
  rewrite trace_bind, trace_settle, outcome_settle.
  rewrite trace_bind, trace_settle, outcome_settle.
  rewrite trace_bind, trace_settle, outcome_settle.
  rewrite trace_bind, trace_of_result, outcome_of_result.
  destruct (outcome w p); simpl; [|now rewrite app_nil_r].
  rewrite trace_bind, trace_of_result, outcome_of_result.
  destruct (outcome w q); simpl; [|now rewrite app_nil_r].
  rewrite trace_bind, trace_of_result, outcome_of_result.
  destruct (outcome w r); simpl; now rewrite app_nil_r.
Qed.

Lemma outcome_Promise_all3 {A B C : Type} (p : Prog A) (q : Prog B) (r : Prog C) :
  outcome w (Promise_all3 p q r) =
  match outcome w p, outcome w q, outcome w r with
  | Ok a, Ok b, Ok c => Ok (a, b, c)
  | Err e, _, _ => Err e
  | Ok _, Err e, _ => Err e
  | Ok _, Ok _, Err e => Err e
  end.
Proof.
  unfold Promise_all3.
  rewrite outcome_bind, outcome_settle.
  rewrite outcome_bind, outcome_settle.
  rewrite outcome_bind, outcome_settle.
  rewrite outcome_bind, outcome_of_result.
  destruct (outcome w p); simpl; auto.
  rewrite outcome_bind, outcome_of_result.
  destruct (outcome w q); simpl; auto.
  rewrite outcome_bind, outcome_of_result.
  destruct (outcome w r); reflexivity.
Qed.

End RunLemmas.

Section RetThrow.
Context {L : Libraries}.
Variable w : World.

Lemma trace_Ret {A : Type} (a : A) : trace w (Ret a) = [].
Proof. reflexivity. Qed.

Lemma outcome_Ret {A : Type} (a : A) : outcome w (Ret a) = Ok a.
Proof. reflexivity. Qed.

Lemma trace_Throw {A : Type} (e : exn) : trace w (@Throw _ A e) = [].
Proof. reflexivity. Qed.

Lemma outcome_Throw {A : Type} (e : exn) : outcome w (@Throw _ A e) = Err e.
Proof. reflexivity. Qed.

End RetThrow.

Create Rewrite HintDb prog.
#[export] Hint Rewrite
  @trace_Ret @outcome_Ret @trace_Throw @outcome_Throw
  @trace_bind @outcome_bind @trace_Call @outcome_Call
  @trace_settle @outcome_settle @trace_of_result @outcome_of_result
  @trace_Promise_all2 @outcome_Promise_all2
  @trace_Promise_all3 @outcome_Promise_all3 : prog.

Ltac prog_simpl :=
  repeat (progress (unfold call; autorewrite with prog; cbv beta iota; cbn [app])).

(** ** What every request of a log satisfies *)

Section Always.
Context {L : Libraries}.
Variable w : World.
Variable P : Request -> Prop.

Lemma always_bind {A B : Type} (p : Prog A) (f : A -> Prog B) :
  Forall P (trace w p) -> (forall a, Forall P (trace w (f a))) ->
  Forall P (trace w (bind p f)).
Proof.
  intros Hp Hf. rewrite trace_bind. apply Forall_app. split; [assumption|].
  destruct (outcome w p); [apply Hf | constructor].
Qed.

Lemma always_Call {A : Type} (r : Request) (k : result (Resp r) -> Prog A) :
  P r -> Forall P (trace w (k (w r))) -> Forall P (trace w (Call r k)).
Proof. intros H Hk. rewrite trace_Call. constructor; assumption. Qed.

Lemma always_of_result {A : Type} (x : result A) : Forall P (trace w (of_result x)).
Proof. rewrite trace_of_result. constructor. Qed.

Lemma always_Ret {A : Type} (a : A) : Forall P (trace w (Ret a)).
Proof. constructor. Qed.

Lemma always_Throw {A : Type} (e : exn) : Forall P (trace w (@Throw _ A e)).
Proof. constructor. Qed.

Lemma always_settle {A : Type} (p : Prog A) :
  Forall P (trace w p) -> Forall P (trace w (settle p)).
Proof. intros H. rewrite trace_settle. exact H. Qed.

Lemma always_Promise_all2 {A B : Type} (p : Prog A) (q : Prog B) :
  Forall P (trace w p) -> Forall P (trace w q) ->
  Forall P (trace w (Promise_all2 p q)).
Proof.
  intros Hp Hq. rewrite trace_Promise_all2. apply Forall_app. split; assumption.
Qed.

Lemma always_Promise_all3 {A B C : Type} (p : Prog A) (q : Prog B) (r : Prog C) :
  Forall P (trace w p) -> Forall P (trace w q) -> Forall P (trace w r) ->
  Forall P (trace w (Promise_all3 p q r)).
Proof.
  intros Hp Hq Hr. rewrite trace_Promise_all3.
  repeat (apply Forall_app; split); assumption.
Qed.

End Always.

(** Goes through a program along its binds, leaving what must hold of each
    request. *)
Ltac always_step :=
  first
    [ apply always_Ret
    | apply always_Throw
    | apply always_of_result
    | apply always_Call
    | apply always_Promise_all3
    | apply always_Promise_all2
    | apply always_settle
    | apply always_bind; [|intros]
    | match goal with
      | |- Forall _ (trace _ (match ?x with _ => _ end)) => destruct x
      | |- Forall _ (trace _ (if ?b then _ else _)) => destruct b
      | |- Forall _ (trace _ (let (_, _) := ?x in _)) => destruct x
      | |- Forall _ (trace _ ?p) =>
          let p' := eval hnf in p in progress change p with p'
      end ].

Ltac always := repeat always_step.

(** ** contract.ts builds its contract first *)

Section EmptyAddress.
Context {L : Libraries}.
Variable w : World.

Lemma Contract_new_empty : Contract_new "" None = Err Contract_new_error.
Proof. unfold Contract_new. rewrite isAddress_empty. reflexivity. Qed.

Lemma getContractWithSigner_throws (signer : Signer) :
  contract.getContractWithSigner signer = Err Contract_new_error.
Proof. unfold contract.getContractWithSigner. rewrite Contract_new_empty. reflexivity. Qed.

Lemma getContractWithProvider_throws (provider : Provider) :
  contract.getContractWithProvider provider = Err Contract_new_error.
Proof. unfold contract.getContractWithProvider. rewrite Contract_new_empty. reflexivity. Qed.

Lemma contract_getProfile_throws signer :
  run w (contract.getProfile signer) = ([], Err Contract_new_error).
Proof. unfold contract.getProfile. rewrite getContractWithSigner_throws. reflexivity. Qed.

Lemma contract_getAgreements_throws provider address page perPage :
  run w (contract.getAgreements provider address page perPage)
  = ([], Err Contract_new_error).
Proof.
  unfold contract.getAgreements. rewrite getContractWithProvider_throws. reflexivity.
Qed.

Lemma contract_getSignatures_throws provider address page perPage :
  run w (contract.getSignatures provider address page perPage)
  = ([], Err Contract_new_error).
Proof.
  unfold contract.getSignatures. rewrite getContractWithProvider_throws. reflexivity.
Qed.

Lemma contract_getAgreement_throws provider address index :
  run w (contract.getAgreement provider address index) = ([], Err Contract_new_error).
Proof.
  unfold contract.getAgreement, contract.getAgreements.
  rewrite getContractWithProvider_throws. reflexivity.
Qed.

Lemma contract_getSignature_throws provider address index :
  run w (contract.getSignature provider address index) = ([], Err Contract_new_error).
Proof.
  unfold contract.getSignature, contract.getSignatures.
  rewrite getContractWithProvider_throws. reflexivity.
Qed.

Lemma contract_createAgreement_throws signer identifier pdf description :
  run w (contract.createAgreement signer identifier pdf description)
  = ([], Err Contract_new_error).
Proof.
  unfold contract.createAgreement. rewrite getContractWithSigner_throws. reflexivity.
Qed.

Lemma contract_sign_throws signer agreement identifier pdf :
  run w (contract.sign signer agreement identifier pdf) = ([], Err Contract_new_error).
Proof. unfold contract.sign. rewrite getContractWithSigner_throws. reflexivity. Qed.

Lemma trace_contract_createAgreement signer identifier pdf description :
  trace w (contract.createAgreement signer identifier pdf description) = [].
Proof. unfold trace. rewrite contract_createAgreement_throws. reflexivity. Qed.

Lemma trace_contract_sign signer agreement identifier pdf :
  trace w (contract.sign signer agreement identifier pdf) = [].
Proof. unfold trace. rewrite contract_sign_throws. reflexivity. Qed.

End EmptyAddress.

(** ** What reaches the ledger *)

Section Submissions.
Context {L : Libraries}.
Variable w : World.

Lemma submitted_agreements_Forall (Q : CreateAgreementParams -> Prop) (t : list Request) :
  Forall (submits Q) t -> Forall Q (submitted_agreements t).
Proof.
  induction 1 as [| r t Hr _ IH]; simpl; [constructor|].
  apply Forall_app. split; [|exact IH].
  destruct r; simpl in *; try constructor; auto.
Qed.

Lemma submitted_agreements_app (t1 t2 : list Request) :
  submitted_agreements (t1 ++ t2) = submitted_agreements t1 ++ submitted_agreements t2.
Proof. apply flat_map_app. Qed.

Lemma nothing_submitted (t : list Request) :
  Forall (submits (fun _ => False)) t -> submitted_agreements t = [].
Proof.
  intros H. apply submitted_agreements_Forall in H.
  destruct (submitted_agreements t) as [| p l]; [reflexivity|].
  inversion H; contradiction.
Qed.

Lemma pinFile_submits_nothing file name :
  submitted_agreements (trace w (files.pinFile file name)) = [].
Proof. apply nothing_submitted. always; exact I. Qed.

Lemma encryptAgreementAndPin_submits_nothing pdf name pw :
  submitted_agreements (trace w (files.encryptAgreementAndPin pdf name pw)) = [].
Proof. apply nothing_submitted. always; exact I. Qed.

Lemma readyCheck_submits_nothing this :
  submitted_agreements (trace w (ZKsigDigitalSignatureContract._readyCheck this)) = [].
Proof. apply nothing_submitted. always; exact I. Qed.

Lemma getAgreementEncryptionMessage_submits_nothing s o i c :
  submitted_agreements (trace w (encrypt.getAgreementEncryptionMessage s o i c)) = [].
Proof. apply nothing_submitted. always; exact I. Qed.

End Submissions.

#[export] Hint Rewrite
  @submitted_agreements_app @pinFile_submits_nothing
  @encryptAgreementAndPin_submits_nothing @readyCheck_submits_nothing
  @getAgreementEncryptionMessage_submits_nothing : prog.

(** One await of a function that went on to succeed: the awaited program
    succeeded too. *)
Ltac await_ok :=
  rewrite trace_bind, outcome_bind;
  match goal with
  | |- context [match outcome ?w ?p with _ => _ end] =>
      let x := fresh "x" in
      let E := fresh "E" in
      destruct (outcome w p) as [x|] eqn:E; [|discriminate]
  end;
  cbv beta iota.

(** ** The ready check *)

Section ReadyCheck.
Context {L : Libraries}.
Import ZKsigDigitalSignatureContract.

Lemma refused_after_check {A : Type} (w : World) (this : t) (p : unit -> Prog A) :
  contract_signer (_contract this) = None ->
  refused w (bind (_readyCheck this) p).
Proof.
  intros H. unfold refused, _readyCheck. rewrite H. reflexivity.
Qed.

(** C10: on an instance whose contract has no signer, each of the eight
    methods that reach the smart contract throws "Use `setSigner` to set an
    ethers Signer before using contract", and the log of requests is empty:
    nothing was sent to the signer, the store or the contract.  The same
    holds for [createAgreement] and [sign] of the earlier revision. *)
Theorem methods_refuse_without_signer (w : World) (this : t) :
  contract_signer (_contract this) = None ->
  refused w (getProfile this) /\
  (forall address page perPage, refused w (getAgreements this address page perPage)) /\
  (forall address index, refused w (getAgreement this address index)) /\
  (forall address page perPage, refused w (getSignatures this address page perPage)) /\
  (forall address index, refused w (getSignature this address index)) /\
  (forall agreement, refused w (createAgreement this agreement)) /\
  (forall agreement identifier pdf, refused w (sign this agreement identifier pdf)) /\
  (forall agreement, refused w (getAgreementEncryptionMessage this agreement)) /\
  (forall agreement, refused w (part_000.createAgreement this agreement)) /\
  (forall agreement identifier pdf,
     refused w (part_000.sign this agreement identifier pdf)).
Proof.
  intros H.
  repeat split; intros; apply refused_after_check; assumption.
Qed.

End ReadyCheck.

Lemma methods_refuse_without_signer_witness :
  refused Sample.world (ZKsigDigitalSignatureContract.getProfile Sample.unconnected) /\
  refused Sample.world
    (ZKsigDigitalSignatureContract.sign Sample.unconnected Sample.lease_on_chain
       "employee" Sample.pdf).
Proof.
  pose proof (methods_refuse_without_signer Sample.world Sample.unconnected eq_refl)
    as (Hprofile & _ & _ & _ & _ & _ & Hsign & _).
  split; [exact Hprofile | apply Hsign].
Defined.

(** ** Pagination *)

Section Pagination.
Context {L : Libraries}.
Variable w : World.
Import ZKsigDigitalSignatureContract.

Lemma trace_readyCheck (this : t) : trace w (_readyCheck this) = [].
Proof. unfold _readyCheck. destruct (contract_signer _); reflexivity. Qed.

Lemma page_requests_address_or_signer this address :
  page_requests (trace w (address_or_signer this address)) = [].
Proof.
  unfold address_or_signer, this_signer.
  destruct (truthy address); [reflexivity|].
  destruct (contract_signer _); [|reflexivity].
  prog_simpl. reflexivity.
Qed.

Lemma page_requests_app (t1 t2 : list Request) :
  page_requests (t1 ++ t2) = page_requests t1 ++ page_requests t2.
Proof. apply flat_map_app. Qed.

Lemma outcome_address_or_signer this s address a :
  contract_signer (_contract this) = Some s ->
  listed_address w s address a ->
  outcome w (address_or_signer this address) = Ok a.
Proof.
  intros Hs [(Ht & ->) | (Ht & Ha)]; unfold address_or_signer, this_signer; rewrite Ht.
  - reflexivity.
  - rewrite Hs. cbn [bind]. unfold call. rewrite outcome_Call, outcome_of_result. exact Ha.
Qed.

Lemma single_page (index : Z) : ((index + 1 - 1) * 1 = index)%Z.
Proof. lia. Qed.

Lemma class_getAgreements_page this s address a page perPage :
  contract_signer (_contract this) = Some s ->
  listed_address w s address a ->
  page_requests (trace w (getAgreements this address page perPage))
    = [((page - 1) * perPage, perPage)%Z] /\
  outcome w (getAgreements this address page perPage)
    = w (contract_getAgreements (_contract this) a ((page - 1) * perPage) perPage).
Proof.
  intros Hs Ha. unfold getAgreements, _readyCheck. rewrite Hs. cbn [bind].
  rewrite trace_bind, outcome_bind, page_requests_app, page_requests_address_or_signer.
  rewrite (outcome_address_or_signer this s address a Hs Ha).
  prog_simpl. split; reflexivity.
Qed.

Lemma class_getSignatures_page this s address a page perPage :
  contract_signer (_contract this) = Some s ->
  listed_address w s address a ->
  page_requests (trace w (getSignatures this address page perPage))
    = [((page - 1) * perPage, perPage)%Z] /\
  outcome w (getSignatures this address page perPage)
    = w (contract_getSignatures (_contract this) a ((page - 1) * perPage) perPage).
Proof.
  intros Hs Ha. unfold getSignatures, _readyCheck. rewrite Hs. cbn [bind].
  rewrite trace_bind, outcome_bind, page_requests_app, page_requests_address_or_signer.
  rewrite (outcome_address_or_signer this s address a Hs Ha).
  prog_simpl. split; reflexivity.
Qed.

Lemma class_getAgreement_item this s address a index :
  contract_signer (_contract this) = Some s ->
  listed_address w s address a ->
  page_requests (trace w (getAgreement this address index)) = [(index, 1%Z)] /\
  outcome w (getAgreement this address index)
    = match w (contract_getAgreements (_contract this) a index 1) with
      | Ok l => Ok (hd_error l)
      | Err e => Err e
      end.
Proof.
  intros Hs Ha.
  destruct (class_getAgreements_page this s address a (index + 1) 1 Hs Ha) as (Hp & Ho).
  rewrite single_page in Hp, Ho.
  unfold getAgreement, _readyCheck. rewrite Hs. cbn [bind].
  rewrite trace_bind, outcome_bind, page_requests_app, Hp, Ho.
  destruct (w _); split; reflexivity.
Qed.

Lemma class_getSignature_item this s address a index :
  contract_signer (_contract this) = Some s ->
  listed_address w s address a ->
  page_requests (trace w (getSignature this address index)) = [(index, 1%Z)] /\
  outcome w (getSignature this address index)
    = match w (contract_getSignatures (_contract this) a index 1) with
      | Ok l => Ok (hd_error l)
      | Err e => Err e
      end.
Proof.
  intros Hs Ha.
  destruct (class_getSignatures_page this s address a (index + 1) 1 Hs Ha) as (Hp & Ho).
  rewrite single_page in Hp, Ho.
  unfold getSignature, _readyCheck. rewrite Hs. cbn [bind].
  rewrite trace_bind, outcome_bind, page_requests_app, Hp, Ho.
  destruct (w _); split; reflexivity.
Qed.

(** C9: on an instance with a signer, for the address given or else the one
    the signer answers, [getAgreements] and [getSignatures] send exactly one
    list call to the smart contract, with offset [(page - 1) * perPage] and
    limit [perPage], and return what the contract answers to it;
    [getAgreement] and [getSignature] ask for page [index + 1] of size 1,
    which is one call with offset [index] and limit 1, and return the first
    element of the page the contract answers ([None], that is [undefined],
    for an empty page).  contract.ts writes the same arithmetic behind
    [new Contract("", abi)], which throws: its four functions send no list
    call at all. *)
Theorem pagination (this : t) (s : Signer) (address : option string) (a : string)
    (page perPage index : Z) :
  contract_signer (_contract this) = Some s ->
  listed_address w s address a ->
  (page_requests (trace w (getAgreements this address page perPage))
     = [((page - 1) * perPage, perPage)%Z] /\
   outcome w (getAgreements this address page perPage)
     = w (contract_getAgreements (_contract this) a ((page - 1) * perPage) perPage)) /\
  (page_requests (trace w (getSignatures this address page perPage))
     = [((page - 1) * perPage, perPage)%Z] /\
   outcome w (getSignatures this address page perPage)
     = w (contract_getSignatures (_contract this) a ((page - 1) * perPage) perPage)) /\
  (page_requests (trace w (getAgreement this address index)) = [(index, 1%Z)] /\
   outcome w (getAgreement this address index)
     = match w (contract_getAgreements (_contract this) a index 1) with
       | Ok l => Ok (hd_error l)
       | Err e => Err e
       end) /\
  (page_requests (trace w (getSignature this address index)) = [(index, 1%Z)] /\
   outcome w (getSignature this address index)
     = match w (contract_getSignatures (_contract this) a index 1) with
       | Ok l => Ok (hd_error l)
       | Err e => Err e
       end) /\
  (forall provider addr size,
     run w (contract.getAgreements provider addr page size) = ([], Err Contract_new_error) /\
     run w (contract.getSignatures provider addr page size) = ([], Err Contract_new_error) /\
     run w (contract.getAgreement provider addr index) = ([], Err Contract_new_error) /\
     run w (contract.getSignature provider addr index) = ([], Err Contract_new_error)).
Proof.
  intros Hs Ha.
  split; [apply (class_getAgreements_page this s address a page perPage Hs Ha)|].
  split; [apply (class_getSignatures_page this s address a page perPage Hs Ha)|].
  split; [apply (class_getAgreement_item this s address a index Hs Ha)|].
  split; [apply (class_getSignature_item this s address a index Hs Ha)|].
  intros provider addr size.
  rewrite contract_getAgreements_throws, contract_getSignatures_throws,
    contract_getAgreement_throws, contract_getSignature_throws.
  repeat split; reflexivity.
Qed.

End Pagination.

(** The third page of ten of the signer's own agreements, and the third
    item. *)
Lemma pagination_witness :
  page_requests
    (trace Sample.world
       (ZKsigDigitalSignatureContract.getAgreements Sample.connected None 3 10))
  = [(20, 10)%Z] /\
  page_requests
    (trace Sample.world (ZKsigDigitalSignatureContract.getAgreement Sample.connected None 2))
  = [(2, 1)%Z].
Proof.
  destruct (pagination Sample.world Sample.connected Sample.alice None
              "0xa96bb1719fa7f78b8B2d3c24BBc79e52Ae9a3988" 3 10 2 eq_refl
              (or_intror (conj eq_refl eq_refl)))
    as ((Hpage & _) & _ & (Hitem & _) & _).
  split; [exact Hpage | exact Hitem].
Defined.

(** ** The nonce *)

Section Nonce.
Context {L : Libraries}.
Variable w : World.

Lemma secretbox_nonces_fixed (t : list Request) :
  Forall fixed_nonce t ->
  Forall (eq (Uint8Array_new 24)) (secretbox_nonces t).
Proof.
  induction 1 as [| r t Hr _ IH]; simpl; [constructor|].
  apply Forall_app. split; [|exact IH].
  destruct r; simpl in *; try constructor; auto.
Qed.

Ltac fixed_nonces :=
  intros; apply secretbox_nonces_fixed; always; first [exact I | reflexivity].

(** C5: in every function of the SDK that seals or opens a secret box
    (the two of files.ts, [createAgreement] and [sign] of contract.ts, of the
    class and of its earlier revision, and the two PDF getters of the class),
    whatever the collaborators answer, each [nacl.secretbox] and
    [nacl.secretbox.open] call of the log has the nonce [new Uint8Array(24)],
    24 zero bytes. *)
Theorem nonce_is_always_zero :
  (forall pdf name pw,
     Forall (eq (Uint8Array_new 24))
       (secretbox_nonces (trace w (files.encryptAgreementAndPin pdf name pw)))) /\
  (forall cid pw,
     Forall (eq (Uint8Array_new 24))
       (secretbox_nonces (trace w (files.downloadAndDecrypt cid pw)))) /\
  (forall signer identifier pdf description,
     Forall (eq (Uint8Array_new 24))
       (secretbox_nonces (trace w (contract.createAgreement signer identifier pdf description)))) /\
  (forall signer agreement identifier pdf,
     Forall (eq (Uint8Array_new 24))
       (secretbox_nonces (trace w (contract.sign signer agreement identifier pdf)))) /\
  (forall this agreement,
     Forall (eq (Uint8Array_new 24))
       (secretbox_nonces (trace w (ZKsigDigitalSignatureContract.createAgreement this agreement)))) /\
  (forall this agreement identifier pdf,
     Forall (eq (Uint8Array_new 24))
       (secretbox_nonces (trace w (ZKsigDigitalSignatureContract.sign this agreement identifier pdf)))) /\
  (forall this agreement pw,
     Forall (eq (Uint8Array_new 24))
       (secretbox_nonces (trace w (ZKsigDigitalSignatureContract.getAgreementPDF this agreement pw)))) /\
  (forall this agreement packet_encryptedCid,
     Forall (eq (Uint8Array_new 24))
       (secretbox_nonces
          (trace w (ZKsigDigitalSignatureContract.getSignaturePDF this agreement packet_encryptedCid)))) /\
  (forall this agreement,
     Forall (eq (Uint8Array_new 24))
       (secretbox_nonces (trace w (part_000.createAgreement this agreement)))) /\
  (forall this agreement identifier pdf,
     Forall (eq (Uint8Array_new 24))
       (secretbox_nonces (trace w (part_000.sign this agreement identifier pdf)))).
Proof.
  repeat split; fixed_nonces.
Qed.

End Nonce.

(** Creating the sample agreement seals one box. *)
Example createAgreement_seals_once :
  secretbox_nonces
    (trace Sample.world (ZKsigDigitalSignatureContract.createAgreement Sample.connected Sample.lease))
  = [Uint8Array_new 24].
Proof. reflexivity. Qed.

(** ** The key *)

Section Key.
Context {L : Libraries}.
Variable w : World.

Lemma secretbox_keys_keyed (k : bytes) (t : list Request) :
  Forall (keyed k) t -> Forall (eq k) (secretbox_keys t).
Proof.
  induction 1 as [| r t Hr _ IH]; simpl; [constructor|].
  apply Forall_app. split; [|exact IH].
  destruct r; simpl in *; try constructor; auto.
Qed.

Lemma secretbox_keys_pinFile file name :
  secretbox_keys (trace w (files.pinFile file name)) = [].
Proof.
  unfold files.pinFile. destruct (packToBlob file) as [root car].
  prog_simpl. simpl. destruct (w _) as [res|]; simpl; [|reflexivity].
  destruct (negb (ok res)); reflexivity.
Qed.

(** C4: the key of the secret box is [encryptionPWBytes.slice(0, 32)], the
    first 32 bytes of the signature bytes [S].  Sealing calls the box once,
    with exactly that key; a download whose fetch answered with an ok
    response opens the fetched bytes once, with exactly that key; and two
    byte sequences with the same first 32 bytes give the same requests and
    the same outcome, for encryption and for decryption. *)
Theorem key_is_first_32_bytes (pdf : bytes) (name cid : string) (S : bytes) :
  secretbox_keys (trace w (files.encryptAgreementAndPin pdf name S)) = [firstn 32 S] /\
  (forall res,
     w (fetch_get ("https://w3s.link/ipfs/" ++ cid)) = Ok res -> ok res = true ->
     trace w (files.downloadAndDecrypt cid S)
       = [fetch_get ("https://w3s.link/ipfs/" ++ cid);
          nacl_secretbox_open (arrayBuffer res) (Uint8Array_new 24) (firstn 32 S)] /\
     secretbox_keys (trace w (files.downloadAndDecrypt cid S)) = [firstn 32 S]) /\
  (forall S', firstn 32 S' = firstn 32 S ->
     run w (files.encryptAgreementAndPin pdf name S')
       = run w (files.encryptAgreementAndPin pdf name S) /\
     run w (files.downloadAndDecrypt cid S') = run w (files.downloadAndDecrypt cid S)).
Proof.
  split; [|split].
  - unfold files.encryptAgreementAndPin. prog_simpl. simpl.
    destruct (w _); [|reflexivity].
    now rewrite secretbox_keys_pinFile.
  - intros res Hget Hok.
    assert (Ht : trace w (files.downloadAndDecrypt cid S)
                 = [fetch_get ("https://w3s.link/ipfs/" ++ cid);
                    nacl_secretbox_open (arrayBuffer res) (Uint8Array_new 24) (firstn 32 S)]).
    { unfold files.downloadAndDecrypt, Uint8Array_slice0. prog_simpl.
      rewrite Hget. cbn [ok arrayBuffer]. rewrite Hok. cbn [negb]. prog_simpl.
      destruct (w (nacl_secretbox_open _ _ _)) as [opened|]; [|reflexivity].
      change (option bytes) in opened. destruct opened; reflexivity. }
    split; [exact Ht | rewrite Ht; reflexivity].
  - intros S' H. split.
    + unfold files.encryptAgreementAndPin, Uint8Array_slice0. now rewrite H.
    + unfold files.downloadAndDecrypt, Uint8Array_slice0. now rewrite H.
Qed.

End Key.

(** A download opens the box with the first 32 bytes of the sample
    signature, and the bytes after them change nothing. *)
Lemma key_is_first_32_bytes_witness :
  secretbox_keys (trace Sample.world (files.downloadAndDecrypt "x" Sample.signature))
  = [Buffer_from "0x5a17/Encrypt PDF for lease/e3b"] /\
  run Sample.world
    (files.downloadAndDecrypt "x" (Buffer_from "0x5a17/Encrypt PDF for lease/e3b"))
  = run Sample.world (files.downloadAndDecrypt "x" Sample.signature).
Proof.
  destruct (key_is_first_32_bytes Sample.world Sample.pdf "lease" "x" Sample.signature)
    as (_ & Hdec & Hsame).
  split.
  - apply (Hdec {| ok := true; arrayBuffer := Buffer_from "x" |}); reflexivity.
  - apply (Hsame (Buffer_from "0x5a17/Encrypt PDF for lease/e3b")). reflexivity.
Defined.

(** ** Encryption and decryption *)

Section RoundTrip.
Context {L : Libraries}.
Variable w : World.

Lemma key_length (pw : bytes) :
  (32 <= List.length pw)%nat -> List.length (Uint8Array_slice0 pw 32) = 32%nat.
Proof. intros H. unfold Uint8Array_slice0. rewrite length_firstn. lia. Qed.

Lemma nonce_length_24 : List.length (Uint8Array_new 24) = 24%nat.
Proof. reflexivity. Qed.

(** C2: with a key of 32 bytes (signature bytes of which 32 or more are
    there to take), under the contract of the secret box, and with a store
    that accepts the one sealed box and serves it under its identifier,
    [encryptAgreementAndPin] returns an identifier under which
    [downloadAndDecrypt], given the same key bytes, returns exactly the
    plaintext that was encrypted. *)
Theorem decrypt_encrypt_roundtrip (pdf : bytes) (name : string) (pw : bytes) :
  (32 <= List.length pw)%nat ->
  secretbox_correct w ->
  (forall sealed,
     w (nacl_secretbox pdf (Uint8Array_new 24) (firstn 32 pw)) = Ok sealed ->
     accepted w sealed name /\ served w sealed) ->
  exists cid,
    outcome w (files.encryptAgreementAndPin pdf name pw) = Ok cid /\
    outcome w (files.downloadAndDecrypt cid pw) = Ok pdf.
Proof.
  intros Hlen Hbox Hstore.
  destruct (Hbox pdf (Uint8Array_new 24) (Uint8Array_slice0 pw 32)
              nonce_length_24 (key_length pw Hlen)) as (c & Hseal & Hopen).
  destruct (Hstore c Hseal) as ((res & Hpost & Hok) & (got & Hget & Hgot & Hbytes)).
  exists (CID_toString (CID_toV1 (fst (packToBlob c)))). split.
  - unfold files.encryptAgreementAndPin. prog_simpl. rewrite Hseal.
    unfold files.pinFile. destruct (packToBlob c) as [root car]. simpl in *.
    prog_simpl. rewrite Hpost. simpl. rewrite Hok. reflexivity.
  - unfold files.downloadAndDecrypt. prog_simpl. rewrite Hget. cbn [ok arrayBuffer].
    rewrite Hgot, Hbytes. cbn [negb]. prog_simpl. rewrite Hopen. reflexivity.
Qed.

End RoundTrip.

(** The sample secret box honours its contract, and the sample store accepts
    and serves what it is given. *)
Lemma bytes_eqb_refl (b : bytes) : Sample.bytes_eqb b b = true.
Proof.
  induction b as [| x b IH]; simpl; [reflexivity|].
  rewrite IH, (Byte.byte_dec_lb eq_refl). reflexivity.
Qed.

Lemma sample_secretbox_correct : secretbox_correct Sample.world.
Proof.
  intros m n k Hn Hk. exists (k ++ m). unfold Sample.world.
  rewrite Hn, Hk. cbn [Nat.eqb negb]. split; [reflexivity|].
  rewrite <- Hk, firstn_app, Nat.sub_diag, firstn_all, firstn_O, app_nil_r.
  rewrite bytes_eqb_refl, skipn_app, Nat.sub_diag, skipn_all.
  reflexivity.
Qed.

Lemma sample_accepted (file : bytes) (name : string) : accepted Sample.world file name.
Proof. eexists. split; reflexivity. Qed.

Lemma sample_served (file : bytes) : served Sample.world file.
Proof.
  eexists. split; [reflexivity|]. split; [reflexivity|].
  simpl. apply list_byte_of_string_of_list_byte.
Qed.

Lemma decrypt_encrypt_roundtrip_witness :
  exists cid,
    outcome Sample.world
      (files.encryptAgreementAndPin Sample.pdf "lease" Sample.signature) = Ok cid /\
    outcome Sample.world (files.downloadAndDecrypt cid Sample.signature) = Ok Sample.pdf.
Proof.
  apply (decrypt_encrypt_roundtrip Sample.world Sample.pdf "lease" Sample.signature).
  - vm_compute. lia.
  - exact sample_secretbox_correct.
  - intros sealed _. split; [apply sample_accepted | apply sample_served].
Defined.

(** The same round trip, evaluated. *)
Example roundtrip_run :
  outcome Sample.world
    (bind (files.encryptAgreementAndPin Sample.pdf "lease" Sample.signature)
          (fun cid => files.downloadAndDecrypt cid Sample.signature))
  = Ok Sample.pdf.
Proof. reflexivity. Qed.

(** ** Failures of a download *)

Section Failures.
Context {L : Libraries}.
Variable w : World.

(** C6: [downloadAndDecrypt] fails closed.  When the store does not serve
    the identifier it throws "Could not fetch agreement from IPFS" and never
    calls the secret box; when the box does not authenticate under the key
    ([nacl.secretbox.open] answers [null]) it throws "Agreement decryption
    failed"; whatever it returns is the plaintext the secret box opened from
    the fetched bytes under the fixed nonce and the key; and the two errors
    are different. *)
Theorem download_fails_closed (cid : string) (pw : bytes) (res : Response) :
  w (fetch_get ("https://w3s.link/ipfs/" ++ cid)) = Ok res ->
  (ok res = false ->
     run w (files.downloadAndDecrypt cid pw)
     = ([fetch_get ("https://w3s.link/ipfs/" ++ cid)],
        Err (Error "Could not fetch agreement from IPFS"))) /\
  (ok res = true ->
     w (nacl_secretbox_open (arrayBuffer res) (Uint8Array_new 24) (Uint8Array_slice0 pw 32))
       = Ok None ->
     outcome w (files.downloadAndDecrypt cid pw)
     = Err (Error "Agreement decryption failed")) /\
  (forall pdf,
     outcome w (files.downloadAndDecrypt cid pw) = Ok pdf ->
     ok res = true /\
     w (nacl_secretbox_open (arrayBuffer res) (Uint8Array_new 24) (Uint8Array_slice0 pw 32))
       = Ok (Some pdf)) /\
  Error "Could not fetch agreement from IPFS" <> Error "Agreement decryption failed".
Proof.
  intros Hget. repeat split.
  - intros Hok. rewrite run_trace_outcome. unfold files.downloadAndDecrypt.
    prog_simpl. rewrite Hget. cbn [ok arrayBuffer]. rewrite Hok. reflexivity.
  - intros Hok Hopen. unfold files.downloadAndDecrypt. prog_simpl.
    rewrite Hget. cbn [ok arrayBuffer]. rewrite Hok. cbn [negb].
    prog_simpl. rewrite Hopen. reflexivity.
  - revert H. unfold files.downloadAndDecrypt. prog_simpl.
    rewrite Hget. cbn [ok arrayBuffer]. destruct (ok res); [reflexivity|discriminate].
  - revert H. unfold files.downloadAndDecrypt. prog_simpl.
    rewrite Hget. cbn [ok arrayBuffer]. destruct (ok res); cbn [negb]; [|discriminate].
    prog_simpl.
    destruct (w (nacl_secretbox_open _ _ _)) as [opened|]; [|discriminate].
    change (option bytes) in opened.
    destruct opened; cbv beta iota; prog_simpl.
    + intros Heq. injection Heq as ->. reflexivity.
    + discriminate.
  - discriminate.
Qed.

(** Without a response at all (the fetch itself rejected) nothing is
    decrypted either. *)
Lemma download_without_response (cid : string) (pw : bytes) (e : exn) :
  w (fetch_get ("https://w3s.link/ipfs/" ++ cid)) = Err e ->
  run w (files.downloadAndDecrypt cid pw)
  = ([fetch_get ("https://w3s.link/ipfs/" ++ cid)], Err e).
Proof.
  intros Hget. rewrite run_trace_outcome. unfold files.downloadAndDecrypt.
  prog_simpl. rewrite Hget. reflexivity.
Qed.

End Failures.

(** A store miss, and a box opened with the key of another signature. *)
Lemma download_fails_closed_witness :
  run Sample.world_without_store (files.downloadAndDecrypt "bafy-missing" Sample.signature)
  = ([fetch_get "https://w3s.link/ipfs/bafy-missing"],
     Err (Error "Could not fetch agreement from IPFS")) /\
  outcome Sample.world
    (files.downloadAndDecrypt "0x5a17/Encrypt PDF for lease/e3b%PDF"
       (Buffer_from "0x5a17/Encrypt PDF for tenant/e3b0c44298fc1c149afbf4c8996fb924"))
  = Err (Error "Agreement decryption failed").
Proof.
  split.
  - apply (download_fails_closed Sample.world_without_store "bafy-missing" Sample.signature
             {| ok := false; arrayBuffer := [] |} eq_refl).
    reflexivity.
  - apply (download_fails_closed Sample.world "0x5a17/Encrypt PDF for lease/e3b%PDF"
             (Buffer_from "0x5a17/Encrypt PDF for tenant/e3b0c44298fc1c149afbf4c8996fb924")
             {| ok := true;
                arrayBuffer := Buffer_from "0x5a17/Encrypt PDF for lease/e3b%PDF" |}
             eq_refl); reflexivity.
Defined.

(** ** The content identifier *)

(** One await on the way to the ledger: the awaited program submits
    nothing, and when it fails nothing is submitted at all. *)
Ltac await_quiet x E :=
  rewrite trace_bind, submitted_agreements_app;
  match goal with
  | |- context [match outcome ?w ?p with _ => _ end] =>
      let Hq := fresh "Hq" in
      assert (Hq : submitted_agreements (trace w p) = [])
        by (apply nothing_submitted; always; exact I);
      rewrite Hq; clear Hq;
      destruct (outcome w p) as [x|] eqn:E; [|left; reflexivity]
  end;
  cbv beta iota; cbn [app].

Section ContentIdentifier.
Context {L : Libraries}.
Variable w : World.

Lemma Promise_all3_ok {A B C : Type} (p : Prog A) (q : Prog B) (r : Prog C) a b c :
  outcome w (Promise_all3 p q r) = Ok (a, b, c) ->
  outcome w p = Ok a /\ outcome w q = Ok b /\ outcome w r = Ok c.
Proof.
  rewrite outcome_Promise_all3.
  destruct (outcome w p), (outcome w q), (outcome w r); try discriminate.
  intros H. injection H as -> -> ->. auto.
Qed.

Lemma part_000_createAgreement_cid this agreement :
  map ca_cid
    (submitted_agreements (trace w (part_000.createAgreement this agreement))) = []
  \/
  exists pdf,
    w (agreement_toBytes agreement) = Ok pdf /\
    map ca_cid
      (submitted_agreements (trace w (part_000.createAgreement this agreement)))
    = [identify pdf].
Proof.
  unfold part_000.createAgreement.
  await_quiet ready Er. await_quiet started Es.
  destruct started as [[address pw] pdf].
  apply Promise_all3_ok in Es. destruct Es as (_ & _ & Epdf).
  rewrite outcome_call in Epdf.
  await_quiet pinned Ep. destruct pinned as [encryptedCid descriptionCid].
  right. exists pdf. split; [assumption|].
  prog_simpl. reflexivity.
Qed.

Lemma part_000_createAgreement_submits this agreement tx :
  outcome w (part_000.createAgreement this agreement) = Ok tx ->
  submitted_agreements (trace w (part_000.createAgreement this agreement)) <> [].
Proof.
  unfold part_000.createAgreement.
  await_ok. await_ok. destruct x0 as [[address pw] pdf].
  await_ok. destruct x0 as [encryptedCid descriptionCid].
  intros _. prog_simpl.
  intros H. apply app_eq_nil in H. destruct H as (_ & H). discriminate H.
Qed.

(** C1: the content identifier handed to the ledger is [identify] of the
    document bytes: the bytes wrapped as a UnixFS file node without links,
    encoded with dag-pb, hashed with SHA-256, the identifier created from the
    digest, normalised with [toV1()] and printed.  In part_000, whatever the
    signer, the store and the ledger answer, [createAgreement] submits no
    record or one record, which carries this identifier of the bytes of
    [agreement.toBytes()]; and a creation that succeeds has submitted
    exactly that.  [identify] mentions no collaborator, so the identifier
    depends on the bytes alone; nothing is asked of the bytes, so the empty
    document has one as well.  In contract.ts the same expression stands
    behind [new Contract("", abi)], which throws: there no record, and so no
    identifier, reaches the ledger. *)
Theorem content_identifier_of_document :
  (forall this agreement,
     (map ca_cid
        (submitted_agreements (trace w (part_000.createAgreement this agreement))) = []
      \/
      exists pdf,
        w (agreement_toBytes agreement) = Ok pdf /\
        map ca_cid
          (submitted_agreements (trace w (part_000.createAgreement this agreement)))
        = [identify pdf]) /\
     (forall tx,
        outcome w (part_000.createAgreement this agreement) = Ok tx ->
        exists pdf,
          w (agreement_toBytes agreement) = Ok pdf /\
          map ca_cid
            (submitted_agreements (trace w (part_000.createAgreement this agreement)))
          = [identify pdf])) /\
  (forall signer identifier pdf description,
     submitted_agreements
       (trace w (contract.createAgreement signer identifier pdf description)) = []).
Proof.
  split.
  - intros this agreement. split.
    + apply part_000_createAgreement_cid.
    + intros tx Hok.
      destruct (part_000_createAgreement_cid this agreement) as [Hnone | Hone];
        [|exact Hone].
      exfalso. apply (part_000_createAgreement_submits this agreement tx Hok).
      destruct (submitted_agreements _); [reflexivity | discriminate Hnone].
  - intros. rewrite trace_contract_createAgreement. reflexivity.
Qed.

End ContentIdentifier.

(** Creating the sample agreement with the earlier revision of the class. *)
Lemma content_identifier_of_document_witness :
  exists pdf,
    Sample.world (agreement_toBytes Sample.lease) = Ok pdf /\
    map ca_cid
      (submitted_agreements
         (trace Sample.world (part_000.createAgreement Sample.connected Sample.lease)))
    = [@identify Sample.libraries pdf].
Proof.
  apply (proj2 (proj1 (content_identifier_of_document Sample.world)
                  Sample.connected Sample.lease) (Tx "0x01")).
  reflexivity.
Defined.

(** The sample document and the empty document, created with the earlier
    revision of the class: one record each, with the identifier of the
    bytes. *)
Example identifier_submitted :
  map ca_cid
    (submitted_agreements
       (trace Sample.world (part_000.createAgreement Sample.connected Sample.lease)))
  = [@identify Sample.libraries Sample.pdf] /\
  map ca_cid
    (submitted_agreements
       (trace Sample.world (part_000.createAgreement Sample.connected Sample.blank)))
  = [@identify Sample.libraries []].
Proof. split; reflexivity. Qed.

(** ** The message signed for the key *)

Section KeyMessage.
Context {L : Libraries}.
Variable w : World.









Lemma trace_getAgreementEncryptionMessage s o i c :
  trace w (encrypt.getAgreementEncryptionMessage s o i c) = [encryption_request s o i c].
Proof.
  unfold encrypt.getAgreementEncryptionMessage. prog_simpl.
  destruct (w _); reflexivity.
Qed.

Lemma outcome_getAgreementEncryptionMessage s o i c pw :
  outcome w (encrypt.getAgreementEncryptionMessage s o i c) = Ok pw ->
  exists sig, w (encryption_request s o i c) = Ok sig /\ pw = Buffer_from sig.
Proof.
  unfold encrypt.getAgreementEncryptionMessage, encryption_request. prog_simpl.
  destruct (w _) as [sig|]; [|discriminate].
  cbv beta iota. prog_simpl. intros H. injection H as <-. eauto.
Qed.








End KeyMessage.



(** The agreement of the counterexample is the one that creation submitted. *)
Example lease_of_part_000_created :
  map (fun p => (ca_identifier p, ca_cid p, ca_encryptedCid p, ca_descriptionCid p))
    (submitted_agreements
       (trace Sample.world (part_000.createAgreement Sample.connected Sample.lease)))
  = [(identifier Sample.lease_of_part_000, cid Sample.lease_of_part_000,
      encryptedCid Sample.lease_of_part_000, descriptionCid Sample.lease_of_part_000)].
Proof. reflexivity. Qed.

(** ** The constraint validator *)

Section Validator.
Import ConstraintValidator.

Lemma find_unique (constraints : list SignatureConstraint) (slot : string)
    (c : SignatureConstraint) :
  NoDup (map sc_identifier constraints) ->
  In c constraints -> sc_identifier c = slot ->
  find (fun c' => (sc_identifier c' =? slot)%string) constraints = Some c.
Proof.
  induction constraints as [| c' l IH]; simpl; intros Hnd Hin Hid; [contradiction|].
  inversion Hnd as [| x l' Hnotin Hnd']; subst.
  destruct Hin as [-> | Hin].
  - rewrite String.eqb_refl. reflexivity.
  - destruct (String.eqb_spec (sc_identifier c') (sc_identifier c)) as [Heq | Hne].
    + exfalso. apply Hnotin. rewrite Heq. apply in_map, Hin.
    + apply IH; auto.
Qed.

Lemma find_none (constraints : list SignatureConstraint) (slot : string) :
  (forall c, In c constraints -> sc_identifier c <> slot) ->
  find (fun c' => (sc_identifier c' =? slot)%string) constraints = None.
Proof.
  induction constraints as [| c' l IH]; simpl; intros H; [reflexivity|].
  destruct (String.eqb_spec (sc_identifier c') slot) as [Heq | Hne].
  - exfalso. exact (H c' (or_introl eq_refl) Heq).
  - apply IH. intros c Hin. apply H. right. exact Hin.
Qed.

Lemma authorize_found (constraints : list SignatureConstraint) (slot signer : string)
    (c : SignatureConstraint) :
  find (fun c' => (sc_identifier c' =? slot)%string) constraints = Some c ->
  (sc_signer c <> AddressZero -> sc_signer c <> signer ->
     authorize constraints slot signer = Denied WrongSigner) /\
  (sc_signer c = AddressZero \/ sc_signer c = signer ->
     sc_allowedToUse c <> 0%N -> (sc_allowedToUse c <= sc_totalUsed c)%N ->
     authorize constraints slot signer = Denied ExhaustedSlot) /\
  (sc_signer c = AddressZero \/ sc_signer c = signer ->
     sc_allowedToUse c = 0%N \/ (sc_totalUsed c < sc_allowedToUse c)%N ->
     authorize constraints slot signer = Authorized (used_once_more c)).
Proof.
  intros Hfind. unfold authorize. rewrite Hfind.
  destruct (String.eqb_spec (sc_signer c) AddressZero) as [Hz | Hz];
    destruct (String.eqb_spec (sc_signer c) signer) as [Hs | Hs];
    destruct (N.eqb_spec (sc_allowedToUse c) 0) as [Ha | Ha];
    destruct (N.leb_spec (sc_allowedToUse c) (sc_totalUsed c)) as [Hu | Hu];
    simpl; repeat split; intros; try reflexivity; try contradiction;
    try tauto; try lia;
    repeat match goal with H : _ \/ _ |- _ => destruct H end;
    try contradiction; try lia.
Qed.

Lemma commit_identifiers (constraints : list SignatureConstraint)
    (updated : SignatureConstraint) :
  map sc_identifier (commit constraints updated) = map sc_identifier constraints.
Proof.
  unfold commit. rewrite map_map. apply map_ext. intros c.
  destruct (String.eqb_spec (sc_identifier c) (sc_identifier updated)) as [Heq | Hne];
    [symmetry; exact Heq | reflexivity].
Qed.

Lemma commit_In (constraints : list SignatureConstraint) (c : SignatureConstraint) :
  In c constraints -> In (used_once_more c) (commit constraints (used_once_more c)).
Proof.
  intros Hin. unfold commit.
  apply in_map_iff. exists c. split; [|exact Hin].
  simpl. rewrite String.eqb_refl. reflexivity.
Qed.

Lemma unlimited_slot (n : nat) :
  forall (constraints : list SignatureConstraint) (slot signer : string)
         (c : SignatureConstraint),
    NoDup (map sc_identifier constraints) ->
    In c constraints -> sc_identifier c = slot ->
    sc_signer c = AddressZero \/ sc_signer c = signer ->
    sc_allowedToUse c = 0%N ->
    exists constraints' c',
      sign_times n constraints slot signer = Some constraints' /\
      In c' constraints' /\ sc_identifier c' = slot /\
      sc_totalUsed c' = (sc_totalUsed c + N.of_nat n)%N.
Proof.
  induction n as [| n IH]; intros constraints slot signer c Hnd Hin Hid Hsigner Hzero.
  - exists constraints, c. simpl. rewrite N.add_0_r. auto.
  - cbn [sign_times].
    destruct (authorize_found constraints slot signer c (find_unique _ _ _ Hnd Hin Hid))
      as (_ & _ & Hgrant).
    rewrite (Hgrant Hsigner (or_introl Hzero)).
    destruct (IH (commit constraints (used_once_more c)) slot signer (used_once_more c))
      as (constraints' & c' & Hrun & Hin' & Hid' & Hused); auto.
    + rewrite commit_identifiers. exact Hnd.
    + apply commit_In, Hin.
    + exists constraints', c'. repeat split; auto.
      rewrite Hused. simpl. lia.
Qed.

(** C7: what [authorize] answers.  Without a constraint named as the slot:
    [Denied NoSuchSlot].  Otherwise, identifiers being unique, for the
    constraint of that name: [Denied WrongSigner] when its signer is neither
    the zero address nor the proposed signer; else [Denied ExhaustedSlot]
    when [allowedToUse] is not zero and [totalUsed] has reached it; else
    [Authorized] with [totalUsed] one higher.  With [allowedToUse = 0] any
    number of signatures in a row is authorized, each against the constraint
    list the previous one left. *)
Theorem authorize_decides (constraints : list SignatureConstraint)
    (slotIdentifier signer : string) :
  ((forall c, In c constraints -> sc_identifier c <> slotIdentifier) ->
   authorize constraints slotIdentifier signer = Denied NoSuchSlot) /\
  (NoDup (map sc_identifier constraints) ->
   forall c, In c constraints -> sc_identifier c = slotIdentifier ->
     (sc_signer c <> AddressZero -> sc_signer c <> signer ->
        authorize constraints slotIdentifier signer = Denied WrongSigner) /\
     (sc_signer c = AddressZero \/ sc_signer c = signer ->
        sc_allowedToUse c <> 0%N -> (sc_allowedToUse c <= sc_totalUsed c)%N ->
        authorize constraints slotIdentifier signer = Denied ExhaustedSlot) /\
     (sc_signer c = AddressZero \/ sc_signer c = signer ->
        sc_allowedToUse c = 0%N \/ (sc_totalUsed c < sc_allowedToUse c)%N ->
        exists updated,
          authorize constraints slotIdentifier signer = Authorized updated /\
          sc_totalUsed updated = (sc_totalUsed c + 1)%N /\
          sc_identifier updated = sc_identifier c /\
          sc_signer updated = sc_signer c /\
          sc_allowedToUse updated = sc_allowedToUse c) /\
     (sc_signer c = AddressZero \/ sc_signer c = signer ->
        sc_allowedToUse c = 0%N ->
        forall n, sign_times n constraints slotIdentifier signer <> None)).
Proof.
  split.
  - intros Hnone. unfold authorize. rewrite (find_none _ _ Hnone). reflexivity.
  - intros Hnd c Hin Hid.
    destruct (authorize_found constraints slotIdentifier signer c
                (find_unique _ _ _ Hnd Hin Hid)) as (Hwrong & Hexhausted & Hgrant).
    repeat split; try assumption.
    + intros Hsigner Hroom. exists (used_once_more c).
      rewrite (Hgrant Hsigner Hroom). repeat split; reflexivity.
    + intros Hsigner Hzero n.
      destruct (unlimited_slot n constraints slotIdentifier signer c
                  Hnd Hin Hid Hsigner Hzero) as (cs' & c' & Hrun & _).
      rewrite Hrun. discriminate.
Qed.

End Validator.

(** The slot of the specification's scenario: no such slot, and the slot
    used up. *)
Lemma authorize_decides_witness :
  ConstraintValidator.authorize [Sample.employee_slot 0] "witness" "0xa96bb1719fa7f78b8B2d3c24BBc79e52Ae9a3988"
    = ConstraintValidator.Denied ConstraintValidator.NoSuchSlot /\
  ConstraintValidator.authorize [Sample.employee_slot 1] "employee" "0xa96bb1719fa7f78b8B2d3c24BBc79e52Ae9a3988"
    = ConstraintValidator.Denied ConstraintValidator.ExhaustedSlot.
Proof.
  split.
  - apply (proj1 (authorize_decides [Sample.employee_slot 0] "witness"
                    "0xa96bb1719fa7f78b8B2d3c24BBc79e52Ae9a3988")).
    intros c [<- | []]. discriminate.
  - assert (Hnd : NoDup (map sc_identifier [Sample.employee_slot 1])).
    { repeat constructor. intros []. }
    destruct (proj2 (authorize_decides [Sample.employee_slot 1] "employee"
                       "0xa96bb1719fa7f78b8B2d3c24BBc79e52Ae9a3988")
                Hnd (Sample.employee_slot 1) (or_introl eq_refl) eq_refl)
      as (_ & Hexhausted & _).
    apply Hexhausted.
    + left. reflexivity.
    + discriminate.
    + simpl. lia.
Defined.

(** The scenarios of the specification. *)
Example first_signature_authorized :
  ConstraintValidator.authorize [Sample.employee_slot 0] "employee"
    "0xa96bb1719fa7f78b8B2d3c24BBc79e52Ae9a3988"
  = ConstraintValidator.Authorized (Sample.employee_slot 1).
Proof. reflexivity. Qed.

Example second_signature_denied :
  ConstraintValidator.sign_times 2 [Sample.employee_slot 0] "employee"
    "0xa96bb1719fa7f78b8B2d3c24BBc79e52Ae9a3988" = None.
Proof. reflexivity. Qed.

Example other_signer_denied :
  ConstraintValidator.authorize
    [ {| sc_identifier := "employee";
         sc_signer := "0xa96bb1719fa7f78b8B2d3c24BBc79e52Ae9a3988";
         sc_totalUsed := 0; sc_allowedToUse := 1 |} ]
    "employee" "0xf08b4ddA8581FcA449A58d4225D804043B71AA5c"
  = ConstraintValidator.Denied ConstraintValidator.WrongSigner.
Proof. reflexivity. Qed.

(** * Further properties of the SDK *)

(** ** Construction of an instance *)

Section Construction.
Context {L : Libraries}.
Import ZKsigDigitalSignatureContract.

Lemma truthy_or_else (x : option string) :
  truthy x = true -> x = Some (or_else x "") /\ or_else x "" <> "".
Proof.
  destruct x as [a|]; simpl; [|discriminate].
  destruct (String.eqb_spec a ""); simpl; [discriminate|]. auto.
Qed.

Lemma or_else_given (s d : string) : s <> "" -> or_else (Some s) d = s.
Proof.
  intros H. unfold or_else. destruct (String.eqb_spec s ""); [contradiction | reflexivity].
Qed.

Lemma truthy_given (a : string) : a <> "" -> truthy (Some a) = true.
Proof. intros H. simpl. destruct (String.eqb_spec a ""); [contradiction | reflexivity]. Qed.

Lemma contractAddresses_known (chainId : option Z) :
  contractAddresses chainId = None <->
  chainId <> Some 80001%Z /\ chainId <> Some 11155111%Z /\ chainId <> Some 31415%Z.
Proof.
  unfold contractAddresses. destruct chainId as [n|].
  - destruct (Z.eqb_spec n 80001) as [-> | H1]; [split; [discriminate | tauto]|].
    destruct (Z.eqb_spec n 11155111) as [-> | H2]; [split; [discriminate | tauto]|].
    destruct (Z.eqb_spec n 31415) as [-> | H3]; [split; [discriminate | tauto]|].
    split; [|reflexivity]. intros _. repeat split; congruence.
  - split; [|reflexivity]. intros _. repeat split; discriminate.
Qed.

Lemma contractAddresses_truthy (chainId : option Z) (a : string) :
  contractAddresses chainId = Some a -> truthy (Some a) = true.
Proof.
  unfold contractAddresses. destruct chainId as [n|]; [|discriminate].
  destruct (n =? 80001)%Z; [intros [= <-]; reflexivity|].
  destruct (n =? 11155111)%Z; [intros [= <-]; reflexivity|].
  destruct (n =? 31415)%Z; [intros [= <-]; reflexivity|discriminate].
Qed.

(** With an address settled on, the constructor is [new Contract] on it. *)
Lemma constructor_chosen (options : ZKsigDigitalSignatureContractOptions) (a : string) :
  chosen_address options a ->
  constructor options
  = match Contract_new a (opt_signer options) with
    | Ok contract => Ok {| _contractAddress := a; _contract := contract |}
    | Err e => Err e
    end.
Proof.
  unfold constructor. intros [(Ha & Hne) | (Hno & Hc)].
  - rewrite Ha, (truthy_given a Hne), (truthy_given a Hne). cbn [negb].
    rewrite (or_else_given a "" Hne). reflexivity.
  - rewrite Hno, Hc, (contractAddresses_truthy _ _ Hc). cbn [negb].
    assert (Hne : a <> "")
      by (intros ->; apply contractAddresses_truthy in Hc; discriminate Hc).
    rewrite (or_else_given a "" Hne). reflexivity.
Qed.

Lemma constructor_unchosen (options : ZKsigDigitalSignatureContractOptions) :
  truthy (opt_address options) = false ->
  contractAddresses (opt_chainId options) = None ->
  exists chain,
    constructor options
    = Err (Error ("Unable to initialize ZKsigDigitalSignatureContract. Invalid chainId "
                  ++ chain)).
Proof.
  intros Hno Hc. unfold constructor. rewrite Hno, Hc. cbn [truthy negb]. eauto.
Qed.

Lemma chosen_or_not (options : ZKsigDigitalSignatureContractOptions) :
  (exists a, chosen_address options a) \/
  (truthy (opt_address options) = false /\
   contractAddresses (opt_chainId options) = None).
Proof.
  unfold chosen_address.
  destruct (truthy (opt_address options)) eqn:Ha.
  - left. destruct (truthy_or_else _ Ha) as (Hsome & Hne). eauto.
  - destruct (contractAddresses (opt_chainId options)) as [a|]; eauto.
Qed.

Lemma chosen_address_unique (options : ZKsigDigitalSignatureContractOptions) (a b : string) :
  chosen_address options a -> chosen_address options b -> a = b.
Proof.
  intros [(Ha & Hne) | (Hno & Hc)] [(Hb & Hne') | (Hno' & Hc')]; try congruence.
  - rewrite Ha, (truthy_given a Hne) in Hno'. discriminate.
  - rewrite Hb, (truthy_given b Hne') in Hno. discriminate.
Qed.

Lemma Contract_new_decides (a : string) (signer : option Signer) :
  (provider_of signer = None -> isAddress a = false ->
   Contract_new a signer = Err Contract_new_error) /\
  (provider_of signer <> None \/ isAddress a = true ->
   Contract_new a signer
   = Ok {| contract_address := a; contract_signer := signer;
           contract_provider := provider_of signer |}).
Proof.
  unfold Contract_new. split.
  - intros -> ->. reflexivity.
  - destruct (provider_of signer) as [p|]; [reflexivity|].
    intros [H | ->]; [contradiction | reflexivity].
Qed.

(** X1: The constructor settles on the address given, when it is not empty,
    whatever the chain id, or else on the address of chain 80001, 11155111
    or 31415.  Without either it throws its own error, "Unable to
    initialize ... Invalid chainId".  With an address it is
    [new Contract]: when the signer of the options brings no provider (or
    there is no signer) and the text is no address, it throws the error of
    ethers; otherwise the instance holds this address and a contract on it
    with the signer and the provider of the options.  These are the only
    ways it throws. *)
Theorem constructor_decides (options : ZKsigDigitalSignatureContractOptions) :
  (truthy (opt_address options) = false ->
   opt_chainId options <> Some 80001%Z ->
   opt_chainId options <> Some 11155111%Z ->
   opt_chainId options <> Some 31415%Z ->
   exists chain,
     constructor options
     = Err (Error ("Unable to initialize ZKsigDigitalSignatureContract. Invalid chainId "
                   ++ chain))) /\
  (forall a, chosen_address options a ->
     (provider_of (opt_signer options) = None -> isAddress a = false ->
      constructor options = Err Contract_new_error) /\
     (provider_of (opt_signer options) <> None \/ isAddress a = true ->
      constructor options
      = Ok {| _contractAddress := a;
              _contract := {| contract_address := a;
                              contract_signer := opt_signer options;
                              contract_provider := provider_of (opt_signer options) |} |})) /\
  ((exists e, constructor options = Err e) <->
   (truthy (opt_address options) = false /\
    opt_chainId options <> Some 80001%Z /\
    opt_chainId options <> Some 11155111%Z /\
    opt_chainId options <> Some 31415%Z) \/
   (exists a, chosen_address options a /\
              provider_of (opt_signer options) = None /\ isAddress a = false)).
Proof.
  split; [|split].
  - intros Hno H1 H2 H3. apply constructor_unchosen; [exact Hno|].
    apply contractAddresses_known. auto.
  - intros a Ha. rewrite (constructor_chosen options a Ha).
    destruct (Contract_new_decides a (opt_signer options)) as (Hbad & Hgood).
    split.
    + intros Hp Hi. rewrite (Hbad Hp Hi). reflexivity.
    + intros H. rewrite (Hgood H). reflexivity.
  - split.
    + intros (e & He).
      destruct (chosen_or_not options) as [(a & Ha) | (Hno & Hc)].
      * right. exists a. split; [exact Ha|].
        rewrite (constructor_chosen options a Ha) in He.
        destruct (Contract_new_decides a (opt_signer options)) as (_ & Hgood).
        destruct (provider_of (opt_signer options)) as [p|] eqn:Hp.
        -- rewrite Hgood in He; [discriminate He | left; discriminate].
        -- destruct (isAddress a) eqn:Hi; [|auto].
           rewrite Hgood in He; [discriminate He | right; reflexivity].
      * left. split; [exact Hno|]. apply contractAddresses_known, Hc.
    + intros [(Hno & Hk) | (a & Ha & Hp & Hi)].
      * apply contractAddresses_known in Hk.
        destruct (constructor_unchosen options Hno Hk) as (chain & He). eauto.
      * rewrite (constructor_chosen options a Ha).
        destruct (Contract_new_decides a (opt_signer options)) as (Hbad & _).
        rewrite (Hbad Hp Hi). eauto.
Qed.

(** An instance that the constructor built without a signer takes any signer
    in [setSigner] without throwing: its address passed the check of
    [new Contract] already. *)
Lemma setSigner_outcome_unconnected (options : ZKsigDigitalSignatureContractOptions)
    (this : t) (signer : Signer) :
  opt_signer options = None -> constructor options = Ok this ->
  setSigner_outcome this signer = Ok tt.
Proof.
  intros Hnone Hok.
  destruct (chosen_or_not options) as [(a & Ha) | (Hno & Hc)].
  - rewrite (constructor_chosen options a Ha), Hnone in Hok.
    unfold Contract_new in Hok. cbn [provider_of] in Hok.
    destruct (isAddress a) eqn:Hi; [|discriminate Hok].
    injection Hok as <-.
    unfold setSigner_outcome, connect_signer, Contract_new. cbn [_contract contract_address].
    rewrite Hi. destruct (provider_of (Some signer)); reflexivity.
  - destruct (constructor_unchosen options Hno Hc) as (chain & He).
    rewrite He in Hok. discriminate Hok.
Qed.

End Construction.

(** A name in place of an address, with a wallet that has no provider. *)
Lemma constructor_decides_witness :
  @ZKsigDigitalSignatureContract.constructor Sample.libraries
    {| ZKsigDigitalSignatureContract.opt_address := Some "zksig.eth";
       ZKsigDigitalSignatureContract.opt_chainId := Some 80001%Z;
       ZKsigDigitalSignatureContract.opt_signer := Some Sample.offline |}
  = Err (@Contract_new_error Sample.libraries).
Proof.
  assert (Hchosen :
    chosen_address
      {| ZKsigDigitalSignatureContract.opt_address := Some "zksig.eth";
         ZKsigDigitalSignatureContract.opt_chainId := Some 80001%Z;
         ZKsigDigitalSignatureContract.opt_signer := Some Sample.offline |} "zksig.eth").
  { left. split; [reflexivity | discriminate]. }
  destruct (@constructor_decides Sample.libraries
              {| ZKsigDigitalSignatureContract.opt_address := Some "zksig.eth";
                 ZKsigDigitalSignatureContract.opt_chainId := Some 80001%Z;
                 ZKsigDigitalSignatureContract.opt_signer := Some Sample.offline |})
    as (_ & Hnew & _).
  destruct (Hnew "zksig.eth" Hchosen) as (Hthrows & _).
  apply Hthrows; reflexivity.
Defined.

(** The same name with a signer that has a provider: the name is resolved
    when a call is made. *)
Example constructor_with_provider :
  @ZKsigDigitalSignatureContract.constructor Sample.libraries
    {| ZKsigDigitalSignatureContract.opt_address := Some "zksig.eth";
       ZKsigDigitalSignatureContract.opt_chainId := None;
       ZKsigDigitalSignatureContract.opt_signer := Some Sample.alice |}
  = Ok {| ZKsigDigitalSignatureContract._contractAddress := "zksig.eth";
          ZKsigDigitalSignatureContract._contract :=
            {| contract_address := "zksig.eth";
               contract_signer := Some Sample.alice;
               contract_provider := Some (ProviderRef 0) |} |}.
Proof. reflexivity. Qed.

Example constructor_unknown_chain :
  @ZKsigDigitalSignatureContract.constructor Sample.libraries
    {| ZKsigDigitalSignatureContract.opt_address := Some "";
       ZKsigDigitalSignatureContract.opt_chainId := Some 5%Z;
       ZKsigDigitalSignatureContract.opt_signer := None |}
  = Err (Error "Unable to initialize ZKsigDigitalSignatureContract. Invalid chainId 5").
Proof. reflexivity. Qed.

Example constructor_without_options :
  @ZKsigDigitalSignatureContract.constructor Sample.libraries
    {| ZKsigDigitalSignatureContract.opt_address := None;
       ZKsigDigitalSignatureContract.opt_chainId := None;
       ZKsigDigitalSignatureContract.opt_signer := None |}
  = Err (Error "Unable to initialize ZKsigDigitalSignatureContract. Invalid chainId undefined").
Proof. reflexivity. Qed.

Example constructor_mumbai :
  @ZKsigDigitalSignatureContract.constructor Sample.libraries
    {| ZKsigDigitalSignatureContract.opt_address := None;
       ZKsigDigitalSignatureContract.opt_chainId := Some 80001%Z;
       ZKsigDigitalSignatureContract.opt_signer := Some Sample.alice |}
  = Ok Sample.connected.
Proof. reflexivity. Qed.

Example constructor_without_signer :
  @ZKsigDigitalSignatureContract.constructor Sample.libraries
    {| ZKsigDigitalSignatureContract.opt_address := None;
       ZKsigDigitalSignatureContract.opt_chainId := Some 80001%Z;
       ZKsigDigitalSignatureContract.opt_signer := None |}
  = Ok Sample.unconnected.
Proof. reflexivity. Qed.

(** ** The signer of an instance *)

Section SetSigner.
Context {L : Libraries}.
Import ZKsigDigitalSignatureContract.

(** X2: [setSigner] does not give an instance a signer: its contract is the one
    it had, so on an instance built without a signer the methods go on
    throwing the error that asks for [setSigner], and send nothing. *)
Theorem setSigner_leaves_unconnected (w : World) (this : t) (signer : Signer) :
  contract_signer (_contract this) = None ->
  contract_signer (_contract (setSigner this signer)) = None /\
  refused w (getProfile (setSigner this signer)) /\
  (forall address page perPage,
     refused w (getAgreements (setSigner this signer) address page perPage)) /\
  (forall address page perPage,
     refused w (getSignatures (setSigner this signer) address page perPage)) /\
  (forall agreement, refused w (createAgreement (setSigner this signer) agreement)) /\
  (forall agreement identifier pdf,
     refused w (sign (setSigner this signer) agreement identifier pdf)) /\
  (forall agreement, refused w (getAgreementPDF (setSigner this signer) agreement None)).
Proof.
  intros H. unfold setSigner. split; [exact H|].
  repeat split; intros; try (apply refused_after_check; exact H).
  unfold getAgreementPDF, getAgreementEncryptionMessage, refused, _readyCheck.
  rewrite H. reflexivity.
Qed.

End SetSigner.

Lemma setSigner_leaves_unconnected_witness :
  refused Sample.world
    (ZKsigDigitalSignatureContract.getProfile
       (@ZKsigDigitalSignatureContract.setSigner Sample.libraries
          Sample.unconnected Sample.alice)).
Proof.
  apply (setSigner_leaves_unconnected Sample.world Sample.unconnected Sample.alice eq_refl).
Defined.

(** ** Pinning *)

Section Pinning.
Context {L : Libraries}.
Variable w : World.

Lemma trace_pinFile file name :
  trace w (files.pinFile file name)
  = [fetch_post "/api/upload" (snd (packToBlob file)) name].
Proof.
  unfold files.pinFile. destruct (packToBlob file) as [root car].
  prog_simpl. destruct (w _) as [res|]; cbv beta iota; [|reflexivity].
  destruct (negb (ok res)); reflexivity.
Qed.

Lemma outcome_pinFile file name :
  outcome w (files.pinFile file name)
  = match w (fetch_post "/api/upload" (snd (packToBlob file)) name) with
    | Ok res => if ok res then Ok (CID_toString (CID_toV1 (fst (packToBlob file))))
                else Err (Error "Unable to pin file to IPFS")
    | Err e => Err e
    end.
Proof.
  unfold files.pinFile. destruct (packToBlob file) as [root car].
  prog_simpl. cbn [fst snd]. destruct (w _) as [res|]; cbv beta iota; [|reflexivity].
  destruct (ok res); reflexivity.
Qed.

Lemma outcome_pinFile_ok file name cid :
  outcome w (files.pinFile file name) = Ok cid ->
  (exists res, w (fetch_post "/api/upload" (snd (packToBlob file)) name) = Ok res /\
               ok res = true) /\
  cid = CID_toString (CID_toV1 (fst (packToBlob file))).
Proof.
  rewrite outcome_pinFile.
  destruct (w _) as [res|]; [|discriminate].
  destruct (ok res) eqn:Hok; [|discriminate].
  intros [= <-]. split; [exists res; auto | reflexivity].
Qed.

Lemma trace_encryptAgreementAndPin pdf name pw :
  trace w (files.encryptAgreementAndPin pdf name pw)
  = nacl_secretbox pdf (Uint8Array_new 24) (Uint8Array_slice0 pw 32)
    :: match w (nacl_secretbox pdf (Uint8Array_new 24) (Uint8Array_slice0 pw 32)) with
       | Ok sealed => [fetch_post "/api/upload" (snd (packToBlob sealed)) name]
       | Err _ => []
       end.
Proof.
  unfold files.encryptAgreementAndPin. prog_simpl.
  destruct (w (nacl_secretbox _ _ _)) as [sealed|]; cbv beta iota; [|reflexivity].
  rewrite trace_pinFile. reflexivity.
Qed.

Lemma outcome_encryptAgreementAndPin pdf name pw :
  outcome w (files.encryptAgreementAndPin pdf name pw)
  = match w (nacl_secretbox pdf (Uint8Array_new 24) (Uint8Array_slice0 pw 32)) with
    | Ok sealed => outcome w (files.pinFile sealed name)
    | Err e => Err e
    end.
Proof.
  unfold files.encryptAgreementAndPin. prog_simpl.
  destruct (w (nacl_secretbox _ _ _)); reflexivity.
Qed.

Lemma outcome_encryptAgreementAndPin_ok pdf name pw cid :
  outcome w (files.encryptAgreementAndPin pdf name pw) = Ok cid ->
  exists sealed,
    w (nacl_secretbox pdf (Uint8Array_new 24) (Uint8Array_slice0 pw 32)) = Ok sealed /\
    (exists res, w (fetch_post "/api/upload" (snd (packToBlob sealed)) name) = Ok res /\
                 ok res = true) /\
    cid = CID_toString (CID_toV1 (fst (packToBlob sealed))).
Proof.
  rewrite outcome_encryptAgreementAndPin.
  destruct (w (nacl_secretbox _ _ _)) as [sealed|]; [|discriminate].
  intros H. apply outcome_pinFile_ok in H. exists sealed. tauto.
Qed.

(** X3: [pinFile] posts the archive of the file once, under the name given.  It
    returns an identifier exactly when the endpoint answered with an ok
    response, and this identifier is the one of the archive's root, the same
    for every name and every answer; with a response that is not ok it
    throws "Unable to pin file to IPFS". *)
Theorem pinFile_decides (file : bytes) (name : string) :
  trace w (files.pinFile file name)
    = [fetch_post "/api/upload" (snd (packToBlob file)) name] /\
  (forall cid,
     outcome w (files.pinFile file name) = Ok cid <->
     (exists res, w (fetch_post "/api/upload" (snd (packToBlob file)) name) = Ok res /\
                  ok res = true) /\
     cid = CID_toString (CID_toV1 (fst (packToBlob file)))) /\
  (forall res,
     w (fetch_post "/api/upload" (snd (packToBlob file)) name) = Ok res ->
     ok res = false ->
     outcome w (files.pinFile file name) = Err (Error "Unable to pin file to IPFS")).
Proof.
  split; [apply trace_pinFile|]. split.
  - intros cid. split; [apply outcome_pinFile_ok|].
    intros ((res & Hres & Hok) & ->). rewrite outcome_pinFile, Hres, Hok. reflexivity.
  - intros res Hres Hok. rewrite outcome_pinFile, Hres, Hok. reflexivity.
Qed.

(** X4: [encryptAgreementAndPin] never posts the document: when the secret box
    refuses (a key that is not 32 bytes long, say) nothing is posted and the
    error is the box's; otherwise the only file posted is the archive of the
    sealed box, and an identifier returned is the one of that archive. *)
Theorem encryptAgreementAndPin_posts_the_box (pdf : bytes) (name : string) (pw : bytes) :
  (forall e,
     w (nacl_secretbox pdf (Uint8Array_new 24) (Uint8Array_slice0 pw 32)) = Err e ->
     uploaded_files (trace w (files.encryptAgreementAndPin pdf name pw)) = [] /\
     outcome w (files.encryptAgreementAndPin pdf name pw) = Err e) /\
  (forall sealed,
     w (nacl_secretbox pdf (Uint8Array_new 24) (Uint8Array_slice0 pw 32)) = Ok sealed ->
     uploaded_files (trace w (files.encryptAgreementAndPin pdf name pw))
       = [snd (packToBlob sealed)] /\
     (forall cid,
        outcome w (files.encryptAgreementAndPin pdf name pw) = Ok cid ->
        cid = CID_toString (CID_toV1 (fst (packToBlob sealed))))).
Proof.
  split.
  - intros e He. rewrite trace_encryptAgreementAndPin, outcome_encryptAgreementAndPin, He.
    split; reflexivity.
  - intros sealed Hs. rewrite trace_encryptAgreementAndPin, Hs. split; [reflexivity|].
    intros cid H. apply outcome_encryptAgreementAndPin_ok in H.
    destruct H as (sealed' & Hs' & _ & ->). rewrite Hs in Hs'. injection Hs' as <-.
    reflexivity.
Qed.

End Pinning.

(** The sample world's box refuses a key of fewer than 32 bytes: nothing is
    posted. *)
Lemma encryptAgreementAndPin_posts_the_box_witness :
  uploaded_files
    (trace Sample.world (files.encryptAgreementAndPin Sample.pdf "lease" (Buffer_from "short")))
  = [] /\
  outcome Sample.world (files.encryptAgreementAndPin Sample.pdf "lease" (Buffer_from "short"))
  = Err (Error "bad key size").
Proof.
  apply (proj1 (encryptAgreementAndPin_posts_the_box Sample.world Sample.pdf "lease"
                  (Buffer_from "short"))).
  reflexivity.
Defined.

Lemma pinFile_decides_witness :
  outcome Sample.world (files.pinFile Sample.pdf "lease") = Ok "%PDF-1.7 lease".
Proof.
  apply (proj1 (proj2 (pinFile_decides Sample.world Sample.pdf "lease"))).
  split; [|reflexivity].
  exists {| ok := true; arrayBuffer := [] |}. split; reflexivity.
Defined.

(** ** The record of a creation *)

Section Records.
Context {L : Libraries}.
Variable w : World.
Import ZKsigDigitalSignatureContract.

Lemma Promise_all2_ok {A B : Type} (p : Prog A) (q : Prog B) a b :
  outcome w (Promise_all2 p q) = Ok (a, b) ->
  outcome w p = Ok a /\ outcome w q = Ok b.
Proof.
  rewrite outcome_Promise_all2.
  destruct (outcome w p), (outcome w q); try discriminate.
  intros H. injection H as -> ->. auto.
Qed.

Lemma this_signer_ok this s :
  outcome w (this_signer this) = Ok s -> contract_signer (_contract this) = Some s.
Proof.
  unfold this_signer. destruct (contract_signer _); [|discriminate].
  intros [= ->]. reflexivity.
Qed.

Lemma address_ok this address :
  outcome w (bind (this_signer this) (fun signer => call (signer_getAddress signer)))
    = Ok address ->
  exists s, contract_signer (_contract this) = Some s /\
            w (signer_getAddress s) = Ok address.
Proof.
  unfold this_signer. destruct (contract_signer _) as [s|]; [|discriminate].
  cbn [bind]. unfold call. rewrite outcome_Call, outcome_of_result. eauto.
Qed.

(** What a successful run of the class's [createAgreement] went through. *)
Lemma class_createAgreement_steps this agreement :
  submitted_agreements (trace w (createAgreement this agreement)) = [] \/
  exists s address c pdf sig sealed,
    contract_signer (_contract this) = Some s /\
    w (signer_getAddress s) = Ok address /\
    w (agreement_getCID agreement) = Ok c /\
    w (agreement_toBytes agreement) = Ok pdf /\
    w (encryption_request s address (getIdentifier agreement) (CID_toString (CID_toV1 c)))
      = Ok sig /\
    w (nacl_secretbox pdf (Uint8Array_new 24) (firstn 32 (Buffer_from sig))) = Ok sealed /\
    (exists res,
       w (fetch_post "/api/upload" (snd (packToBlob sealed))
            (address ++ " - " ++ getIdentifier agreement)) = Ok res /\ ok res = true) /\
    (exists res,
       w (fetch_post "/api/upload"
            (snd (packToBlob (Buffer_from (JSON_stringify_fields (getDescription agreement)))))
            ("Description: " ++ address ++ " - " ++ getIdentifier agreement)) = Ok res /\
       ok res = true) /\
    submitted_agreements (trace w (createAgreement this agreement))
    = [ {| ca_identifier := getIdentifier agreement;
           ca_cid := CID_toString (CID_toV1 c);
           ca_encryptedCid := CID_toString (CID_toV1 (fst (packToBlob sealed)));
           ca_descriptionCid :=
             CID_toString (CID_toV1 (fst (packToBlob
               (Buffer_from (JSON_stringify_fields (getDescription agreement))))));
           ca_constraints := constraints_of (getDescription agreement);
           ca_agreementCallback := AddressZero;
           ca_signatureCallback := AddressZero;
           ca_extraInfo := [] |} ].
Proof.
  unfold createAgreement.
  await_quiet ready Er. await_quiet started Es.
  destruct started as [[address c] pdf].
  apply Promise_all3_ok in Es. destruct Es as (Ea & Ec & Eb).
  apply address_ok in Ea. destruct Ea as (s & Hs & Ha).
  rewrite outcome_call in Ec, Eb.
  await_quiet s' Esg. apply this_signer_ok in Esg.
  rewrite Hs in Esg. injection Esg as <-.
  await_quiet pw Em. apply outcome_getAgreementEncryptionMessage in Em.
  destruct Em as (sig & Hsig & ->).
  await_quiet pinned Ep. destruct pinned as [encryptedCid descriptionCid].
  apply Promise_all2_ok in Ep. destruct Ep as (Ee & Ed).
  apply outcome_encryptAgreementAndPin_ok in Ee.
  destruct Ee as (sealed & Hsealed & Hpost & ->).
  apply outcome_pinFile_ok in Ed. destruct Ed as (Hpost' & ->).
  right. exists s, address, c, pdf, sig, sealed.
  repeat (split; [assumption|]).
  prog_simpl. reflexivity.
Qed.

Lemma submitted_signatures_app (t1 t2 : list Request) :
  submitted_signatures (t1 ++ t2) = submitted_signatures t1 ++ submitted_signatures t2.
Proof. apply flat_map_app. Qed.

Lemma nothing_signed_on_chain (t : list Request) :
  Forall (fun r => match r with contract_sign _ _ => False | _ => True end) t ->
  submitted_signatures t = [].
Proof.
  induction 1 as [| r t Hr _ IH]; [reflexivity|].
  destruct r; simpl in *; try exact IH. contradiction.
Qed.

End Records.

(** One await on the way to [contract.sign]: the awaited program hands no
    signature to the ledger, and when it fails none is handed at all. *)
Ltac await_unsigned x E :=
  rewrite trace_bind, submitted_signatures_app;
  match goal with
  | |- context [match outcome ?w ?p with _ => _ end] =>
      let Hq := fresh "Hq" in
      assert (Hq : submitted_signatures (trace w p) = [])
        by (apply nothing_signed_on_chain; always; exact I);
      rewrite Hq; clear Hq;
      destruct (outcome w p) as [x|] eqn:E; [|left; reflexivity]
  end;
  cbv beta iota; cbn [app].

Section SignRecords.
Context {L : Libraries}.
Variable w : World.
Import ZKsigDigitalSignatureContract.

(** What a run of the class's [sign] that reached the ledger went through. *)
Lemma class_sign_steps this agreement slot pdf :
  submitted_signatures (trace w (sign this agreement slot pdf)) = [] \/
  exists s address sig sealed,
    contract_signer (_contract this) = Some s /\
    w (signer_getAddress s) = Ok address /\
    w (encryption_request s (owner agreement) (identifier agreement) (cid agreement))
      = Ok sig /\
    w (nacl_secretbox pdf (Uint8Array_new 24) (firstn 32 (Buffer_from sig))) = Ok sealed /\
    (exists res,
       w (fetch_post "/api/upload" (snd (packToBlob sealed))
            ("Signature - " ++ address ++ " - " ++ slot ++ " on " ++ identifier agreement))
         = Ok res /\ ok res = true) /\
    submitted_signatures (trace w (sign this agreement slot pdf))
    = [ {| sg_identifier := slot;
           sg_encryptedCid := CID_toString (CID_toV1 (fst (packToBlob sealed)));
           sg_agreementOwner := owner agreement;
           sg_agreementIndex := index agreement;
           sg_extraInfo := [] |} ].
Proof.
  unfold sign.
  await_unsigned ready Er. await_unsigned s Es. apply this_signer_ok in Es.
  await_unsigned started Ep. destruct started as [address pw].
  apply Promise_all2_ok in Ep. destruct Ep as (Ea & Em).
  rewrite outcome_call in Ea.
  apply outcome_getAgreementEncryptionMessage in Em. destruct Em as (sig & Hsig & ->).
  await_unsigned ecid Ee.
  apply outcome_encryptAgreementAndPin_ok in Ee.
  destruct Ee as (sealed & Hsealed & Hpost & ->).
  right. exists s, address, sig, sealed.
  repeat (split; [assumption|]).
  prog_simpl. reflexivity.
Qed.

End SignRecords.

(** ** The constraints submitted at creation *)

Section Constraints.
Context {L : Libraries}.
Variable w : World.
Import ZKsigDigitalSignatureContract.








End Constraints.


Example constraints_of_the_lease :
  map ca_constraints
    (submitted_agreements
       (trace Sample.world
          (ZKsigDigitalSignatureContract.createAgreement Sample.connected Sample.lease)))
  = [[ {| ci_identifier := "employee"; ci_signer := AddressZero;
          ci_totalUsed := 0; ci_allowedToUse := Some 1%Z |} ]].
Proof. reflexivity. Qed.

(** With both fields given the class submits them as they are. *)
Example constraints_given :
  ZKsigDigitalSignatureContract.constraints_of
    (described
       [ {| sd_identifier := "employee";
            sd_signer := Some "0xa96bb1719fa7f78b8B2d3c24BBc79e52Ae9a3988";
            sd_allowedToUse := Some 0%Z |} ])
  = [ {| ci_identifier := "employee";
         ci_signer := "0xa96bb1719fa7f78b8B2d3c24BBc79e52Ae9a3988";
         ci_totalUsed := 0;
         ci_allowedToUse := Some 0%Z |} ].
Proof. reflexivity. Qed.

Section RecordTheorems.
Context {L : Libraries}.
Variable w : World.
Import ZKsigDigitalSignatureContract.

(** X5: The class's [createAgreement] hands the ledger no record or one, and
    one only after the signer, the agreement, the secret box and both uploads
    answered: its [encryptedCid] is the identifier of the archive of the
    sealed bytes of [agreement.toBytes()], its [descriptionCid] the
    identifier of the archive of the JSON text of the description, its
    [cid] the printed version-1 form of [agreement.getCID()], both callbacks
    are the zero address and the extra information is empty. *)
Theorem createAgreement_record (this : t) (agreement : ZKsigAgreement) :
  submitted_agreements (trace w (createAgreement this agreement)) = [] \/
  exists s address c pdf sig sealed,
    contract_signer (_contract this) = Some s /\
    w (signer_getAddress s) = Ok address /\
    w (agreement_getCID agreement) = Ok c /\
    w (agreement_toBytes agreement) = Ok pdf /\
    w (encryption_request s address (getIdentifier agreement) (CID_toString (CID_toV1 c)))
      = Ok sig /\
    w (nacl_secretbox pdf (Uint8Array_new 24) (firstn 32 (Buffer_from sig))) = Ok sealed /\
    (exists res,
       w (fetch_post "/api/upload" (snd (packToBlob sealed))
            (address ++ " - " ++ getIdentifier agreement)) = Ok res /\ ok res = true) /\
    (exists res,
       w (fetch_post "/api/upload"
            (snd (packToBlob (Buffer_from (JSON_stringify_fields (getDescription agreement)))))
            ("Description: " ++ address ++ " - " ++ getIdentifier agreement)) = Ok res /\
       ok res = true) /\
    submitted_agreements (trace w (createAgreement this agreement))
    = [ {| ca_identifier := getIdentifier agreement;
           ca_cid := CID_toString (CID_toV1 c);
           ca_encryptedCid := CID_toString (CID_toV1 (fst (packToBlob sealed)));
           ca_descriptionCid :=
             CID_toString (CID_toV1 (fst (packToBlob
               (Buffer_from (JSON_stringify_fields (getDescription agreement))))));
           ca_constraints := constraints_of (getDescription agreement);
           ca_agreementCallback := AddressZero;
           ca_signatureCallback := AddressZero;
           ca_extraInfo := [] |} ].
Proof. apply class_createAgreement_steps. Qed.

(** X6: The class's [sign] hands the ledger no signature or one, and one only
    after the document was sealed and pinned: the record names the slot,
    the agreement's owner and index, and the identifier of the archive of
    the sealed document; the key is taken from the signature of the
    agreement's encryption message. *)
Theorem sign_record (this : t) (agreement : Agreement) (slot : string) (pdf : bytes) :
  submitted_signatures (trace w (sign this agreement slot pdf)) = [] \/
  exists s address sig sealed,
    contract_signer (_contract this) = Some s /\
    w (signer_getAddress s) = Ok address /\
    w (encryption_request s (owner agreement) (identifier agreement) (cid agreement))
      = Ok sig /\
    w (nacl_secretbox pdf (Uint8Array_new 24) (firstn 32 (Buffer_from sig))) = Ok sealed /\
    (exists res,
       w (fetch_post "/api/upload" (snd (packToBlob sealed))
            ("Signature - " ++ address ++ " - " ++ slot ++ " on " ++ identifier agreement))
         = Ok res /\ ok res = true) /\
    submitted_signatures (trace w (sign this agreement slot pdf))
    = [ {| sg_identifier := slot;
           sg_encryptedCid := CID_toString (CID_toV1 (fst (packToBlob sealed)));
           sg_agreementOwner := owner agreement;
           sg_agreementIndex := index agreement;
           sg_extraInfo := [] |} ].
Proof. apply class_sign_steps. Qed.

(** Reading back with the key of a signature [sig]: the sealed bytes pinned
    under an identifier open to the document. *)
Lemma download_sealed (m : bytes) (sig : string) (sealed : bytes) :
  secretbox_correct w -> serves_sealed w m (firstn 32 (Buffer_from sig)) ->
  (32 <= List.length (Buffer_from sig))%nat ->
  w (nacl_secretbox m (Uint8Array_new 24) (firstn 32 (Buffer_from sig))) = Ok sealed ->
  outcome w (files.downloadAndDecrypt
               (CID_toString (CID_toV1 (fst (packToBlob sealed)))) (Buffer_from sig))
  = Ok m.
Proof.
  intros Hbox Hstore Hlen Hsealed.
  destruct (Hbox m (Uint8Array_new 24) (Uint8Array_slice0 (Buffer_from sig) 32)
              nonce_length_24 (key_length _ Hlen)) as (c & Hseal & Hopen).
  unfold Uint8Array_slice0 in Hseal, Hopen.
  rewrite Hsealed in Hseal. injection Hseal as <-.
  destruct (Hstore sealed Hsealed) as (res & Hget & Hok & Hbytes).
  unfold files.downloadAndDecrypt. prog_simpl. rewrite Hget. cbn [ok arrayBuffer].
  rewrite Hok, Hbytes. cbn [negb].
  prog_simpl. unfold Uint8Array_slice0. rewrite Hopen. reflexivity.
Qed.

Lemma outcome_class_getAgreementEncryptionMessage this agreement s sig :
  contract_signer (_contract this) = Some s ->
  w (encryption_request s (owner agreement) (identifier agreement) (cid agreement)) = Ok sig ->
  outcome w (getAgreementEncryptionMessage this agreement) = Ok (Buffer_from sig).
Proof.
  intros Hs Hsig.
  unfold getAgreementEncryptionMessage, _readyCheck, this_signer.
  rewrite Hs. cbn [bind].
  unfold encrypt.getAgreementEncryptionMessage. prog_simpl.
  unfold encryption_request in Hsig. rewrite Hsig. reflexivity.
Qed.

(** X7: The owner reads back what the owner created.  With a secret box and
    a signer that honour their contracts, and a store that serves the one
    sealed document under its identifier: once [createAgreement] has handed
    a record to the ledger, [getAgreementPDF], called by the same signer on
    an agreement that carries the record's identifier, content identifier
    and encrypted identifier and is owned by the signer's address, returns
    the bytes of [agreement.toBytes()]. *)
Theorem created_document_is_read_back (this : t) (created : ZKsigAgreement)
    (agreement : Agreement) (p : CreateAgreementParams) :
  secretbox_correct w -> signatures_fill_key w ->
  submitted_agreements (trace w (createAgreement this created)) = [p] ->
  identifier agreement = ca_identifier p ->
  cid agreement = ca_cid p ->
  encryptedCid agreement = ca_encryptedCid p ->
  (forall s, contract_signer (_contract this) = Some s ->
             w (signer_getAddress s) = Ok (owner agreement)) ->
  (forall s pdf sig,
     contract_signer (_contract this) = Some s ->
     w (agreement_toBytes created) = Ok pdf ->
     w (encryption_request s (owner agreement) (identifier agreement) (cid agreement))
       = Ok sig ->
     serves_sealed w pdf (firstn 32 (Buffer_from sig))) ->
  exists pdf,
    w (agreement_toBytes created) = Ok pdf /\
    outcome w (getAgreementPDF this agreement None) = Ok pdf.
Proof.
  intros Hbox Hsigs Hsub Hid Hcid Hecid Howner Hstore.
  destruct (class_createAgreement_steps w this created)
    as [Hnone | (s & address & c & pdf & sig & sealed
                 & Hs & Ha & Hc & Hpdf & Hsig & Hsealed & _ & _ & Hrec)].
  - rewrite Hnone in Hsub. discriminate Hsub.
  - rewrite Hrec in Hsub. injection Hsub as <-. cbn in Hid, Hcid, Hecid.
    specialize (Howner s Hs). rewrite Ha in Howner. injection Howner as ->.
    rewrite <- Hid, <- Hcid in Hsig.
    exists pdf. split; [exact Hpdf|].
    unfold getAgreementPDF. rewrite outcome_bind.
    rewrite (outcome_class_getAgreementEncryptionMessage this agreement s sig Hs Hsig).
    rewrite Hecid.
    apply download_sealed;
      [exact Hbox | exact (Hstore s pdf sig Hs Hpdf Hsig) | | exact Hsealed].
    destruct Hsigs as (_ & Htyped). exact (Htyped _ _ _ _ _ Hsig).
Qed.

(** X8: A signer reads back what the signer signed.  With a secret box and a
    signer that honour their contracts, and a store that serves the one
    sealed document under its identifier: once the class's [sign] has
    handed a signature to the ledger, [getSignaturePDF], called by the same
    signer with the same agreement on the packet's encrypted identifier,
    returns the document that was signed. *)
Theorem signed_document_is_read_back (this : t) (agreement : Agreement)
    (slot : string) (pdf : bytes) (p : SignParams) :
  secretbox_correct w -> signatures_fill_key w ->
  (forall s sig,
     contract_signer (_contract this) = Some s ->
     w (encryption_request s (owner agreement) (identifier agreement) (cid agreement))
       = Ok sig ->
     serves_sealed w pdf (firstn 32 (Buffer_from sig))) ->
  submitted_signatures (trace w (sign this agreement slot pdf)) = [p] ->
  outcome w (getSignaturePDF this agreement (sg_encryptedCid p)) = Ok pdf.
Proof.
  intros Hbox Hsigs Hstore Hsub.
  destruct (class_sign_steps w this agreement slot pdf)
    as [Hnone | (s & address & sig & sealed & Hs & Ha & Hsig & Hsealed & _ & Hrec)].
  - rewrite Hnone in Hsub. discriminate Hsub.
  - rewrite Hrec in Hsub. injection Hsub as <-. cbn [sg_encryptedCid].
    unfold getSignaturePDF. rewrite outcome_bind.
    rewrite (outcome_class_getAgreementEncryptionMessage this agreement s sig Hs Hsig).
    apply download_sealed; [exact Hbox | exact (Hstore s sig Hs Hsig) | | exact Hsealed].
    destruct Hsigs as (_ & Htyped). exact (Htyped _ _ _ _ _ Hsig).
Qed.

End RecordTheorems.

Lemma length_Buffer_from_append (a b : string) :
  List.length (Buffer_from (a ++ b)%string)
  = (String.length a + List.length (Buffer_from b))%nat.
Proof.
  unfold Buffer_from, list_byte_of_string.
  induction a as [| c a IH]; simpl; [reflexivity|].
  f_equal. exact IH.
Qed.

Lemma sample_signatures_fill_key : signatures_fill_key Sample.world.
Proof.
  split.
  - intros s message sig H.
    assert (Hsig : sig = (Sample.text_mark s ++ message
                            ++ "/e3b0c44298fc1c149afbf4c8996fb924")%string)
      by (injection H as <-; reflexivity).
    rewrite Hsig, !length_Buffer_from_append. simpl. lia.
  - intros s domain types value sig H.
    assert (Hsig : sig = (Sample.typed_mark s ++ Sample.show_value value
                            ++ "/e3b0c44298fc1c149afbf4c8996fb924")%string)
      by (injection H as <-; reflexivity).
    rewrite Hsig, !length_Buffer_from_append. simpl. lia.
Qed.

Lemma created_document_is_read_back_witness :
  exists pdf,
    Sample.world (agreement_toBytes Sample.lease) = Ok pdf /\
    outcome Sample.world
      (ZKsigDigitalSignatureContract.getAgreementPDF Sample.connected Sample.lease_stored None)
    = Ok pdf.
Proof.
  eapply (created_document_is_read_back Sample.world Sample.connected Sample.lease
            Sample.lease_stored).
  - exact sample_secretbox_correct.
  - exact sample_signatures_fill_key.
  - reflexivity.
  - reflexivity.
  - reflexivity.
  - reflexivity.
  - intros s Hs. injection Hs as <-. reflexivity.
  - intros s pdf sig _ _ _ sealed _. apply sample_served.
Defined.

Lemma signed_document_is_read_back_witness :
  outcome Sample.world
    (ZKsigDigitalSignatureContract.getSignaturePDF Sample.connected Sample.lease_stored
       "0x7d/0xa96bb1719fa7f78b8B2d3c24Bsigned copy")
  = Ok (Buffer_from "signed copy").
Proof.
  apply (signed_document_is_read_back Sample.world Sample.connected Sample.lease_stored
           "employee" (Buffer_from "signed copy")
           {| sg_identifier := "employee";
              sg_encryptedCid := "0x7d/0xa96bb1719fa7f78b8B2d3c24Bsigned copy";
              sg_agreementOwner := owner Sample.lease_stored;
              sg_agreementIndex := index Sample.lease_stored;
              sg_extraInfo := [] |}).
  - exact sample_secretbox_correct.
  - exact sample_signatures_fill_key.
  - intros s sig _ _ sealed _. apply sample_served.
  - reflexivity.
Defined.

(** ** Reading with a key at hand *)

Section WithKey.
Context {L : Libraries}.
Variable w : World.
Import ZKsigDigitalSignatureContract.

(** X9: [getAgreementPDF] with the key bytes given is [downloadAndDecrypt] on the
    agreement's encrypted identifier: the signer is asked nothing and need
    not be there.  Without the key bytes it asks the signer, as
    [getSignaturePDF] always does, and on an instance without a signer both
    throw the error of the ready check and send nothing. *)
Theorem getAgreementPDF_with_key (this : t) (agreement : Agreement) :
  (forall pw,
     run w (getAgreementPDF this agreement (Some pw))
       = run w (files.downloadAndDecrypt (encryptedCid agreement) pw) /\
     Forall (fun r => match r with fetch_get _ | nacl_secretbox_open _ _ _ => True
                              | _ => False end)
       (trace w (getAgreementPDF this agreement (Some pw)))) /\
  (contract_signer (_contract this) = None ->
     refused w (getAgreementPDF this agreement None) /\
     forall packet_encryptedCid,
       refused w (getSignaturePDF this agreement packet_encryptedCid)).
Proof.
  split.
  - intros pw. split; [reflexivity|].
    unfold getAgreementPDF. cbn [bind]. unfold files.downloadAndDecrypt.
    always; exact I.
  - intros H. split; [|intros c];
      unfold getAgreementPDF, getSignaturePDF, getAgreementEncryptionMessage,
        refused, _readyCheck; rewrite H; reflexivity.
Qed.

End WithKey.

Lemma getAgreementPDF_with_key_witness :
  refused Sample.world
    (ZKsigDigitalSignatureContract.getSignaturePDF Sample.unconnected Sample.lease_stored
       "bafy") /\
  refused Sample.world
    (ZKsigDigitalSignatureContract.getAgreementPDF Sample.unconnected Sample.lease_stored None).
Proof.
  destruct (proj2 (getAgreementPDF_with_key Sample.world Sample.unconnected
                     Sample.lease_stored) eq_refl) as (Hpdf & Hpacket).
  split; [apply Hpacket | exact Hpdf].
Defined.

(** Without a signer, with the key bytes: the document. *)
Example getAgreementPDF_unconnected :
  outcome Sample.world
    (ZKsigDigitalSignatureContract.getAgreementPDF Sample.unconnected Sample.lease_stored
       (Some (Buffer_from "0x7d/0xa96bb1719fa7f78b8B2d3c24Bb1719fa7f78b8B2d")))
  = Ok Sample.pdf.
Proof. reflexivity. Qed.

(** ** Whose agreements are listed *)

Section Listing.
Context {L : Libraries}.
Variable w : World.
Import ZKsigDigitalSignatureContract.

Lemma address_or_signer_given this a :
  a <> "" -> address_or_signer this (Some a) = Ret a.
Proof.
  intros H. unfold address_or_signer, truthy.
  destruct (String.eqb_spec a ""); [contradiction|].
  cbn [negb]. rewrite (or_else_given a "" H). reflexivity.
Qed.

Lemma address_or_signer_omitted this address s :
  truthy address = false -> contract_signer (_contract this) = Some s ->
  address_or_signer this address = call (signer_getAddress s).
Proof.
  intros H Hs. unfold address_or_signer, this_signer. rewrite H, Hs. reflexivity.
Qed.

(** X10: On an instance with a signer, [getAgreements] and [getSignatures] list
    the address given without asking the signer for anything; when the
    address is left out, or empty, they ask the signer for its address and
    list that one, and when the signer refuses they call nothing on the
    contract. *)
Theorem listing_address (this : t) (s : Signer) (address : option string)
    (page perPage : Z) :
  contract_signer (_contract this) = Some s ->
  (forall a, address = Some a -> a <> "" ->
     trace w (getAgreements this address page perPage)
       = [contract_getAgreements (_contract this) a ((page - 1) * perPage) perPage] /\
     trace w (getSignatures this address page perPage)
       = [contract_getSignatures (_contract this) a ((page - 1) * perPage) perPage]) /\
  (truthy address = false ->
     (forall a, w (signer_getAddress s) = Ok a ->
        trace w (getAgreements this address page perPage)
          = [signer_getAddress s;
             contract_getAgreements (_contract this) a ((page - 1) * perPage) perPage] /\
        trace w (getSignatures this address page perPage)
          = [signer_getAddress s;
             contract_getSignatures (_contract this) a ((page - 1) * perPage) perPage]) /\
     (forall e, w (signer_getAddress s) = Err e ->
        run w (getAgreements this address page perPage) = ([signer_getAddress s], Err e) /\
        run w (getSignatures this address page perPage) = ([signer_getAddress s], Err e))).
Proof.
  intros Hs. split.
  - intros a -> Ha.
    unfold getAgreements, getSignatures, _readyCheck. rewrite Hs. cbn [bind].
    rewrite (address_or_signer_given this a Ha). cbn [bind].
    prog_simpl. split; reflexivity.
  - intros Hno. split.
    + intros a Ha.
      unfold getAgreements, getSignatures, _readyCheck. rewrite Hs. cbn [bind].
      rewrite (address_or_signer_omitted this address s Hno Hs).
      prog_simpl. rewrite Ha. prog_simpl. split; reflexivity.
    + intros e He. rewrite !run_trace_outcome.
      unfold getAgreements, getSignatures, _readyCheck. rewrite Hs. cbn [bind].
      rewrite (address_or_signer_omitted this address s Hno Hs).
      prog_simpl. rewrite He. split; reflexivity.
Qed.

End Listing.

Lemma listing_address_witness :
  trace Sample.world
    (ZKsigDigitalSignatureContract.getAgreements Sample.connected (Some "") 1 10)
  = [signer_getAddress Sample.alice;
     contract_getAgreements
       (ZKsigDigitalSignatureContract._contract Sample.connected)
       "0xa96bb1719fa7f78b8B2d3c24BBc79e52Ae9a3988" 0 10].
Proof.
  apply (proj1 (proj2 (listing_address Sample.world Sample.connected Sample.alice
                         (Some "") 1 10 eq_refl) eq_refl)
           "0xa96bb1719fa7f78b8B2d3c24BBc79e52Ae9a3988" eq_refl).
Defined.

(** ** What [sign] looks at *)

Section SignInputs.
Context {L : Libraries}.
Variable w : World.

(** X11: [sign] reads the owner, the index, the identifier and the content
    identifier of the agreement and nothing else of it: the status, the
    counters of packets and the constraints, used up or not, change neither
    the requests sent nor the outcome.  In contract.ts the owner and the
    index are all it reads. *)
Theorem sign_reads_four_fields (this : ZKsigDigitalSignatureContract.t)
    (signer : Signer) (a a' : Agreement) (slot : string) (pdf : bytes) :
  owner a' = owner a -> index a' = index a ->
  (identifier a' = identifier a -> cid a' = cid a ->
   run w (ZKsigDigitalSignatureContract.sign this a' slot pdf)
   = run w (ZKsigDigitalSignatureContract.sign this a slot pdf)) /\
  run w (contract.sign signer a' slot pdf) = run w (contract.sign signer a slot pdf).
Proof.
  intros Ho Hi. split.
  - intros Hid Hcid. unfold ZKsigDigitalSignatureContract.sign.
    rewrite Ho, Hi, Hid, Hcid. reflexivity.
  - unfold contract.sign. rewrite Ho, Hi. reflexivity.
Qed.

End SignInputs.

(** The slot of the sample agreement, free or used up: the same signature is
    handed to the ledger. *)
Lemma sign_reads_four_fields_witness :
  run Sample.world
    (ZKsigDigitalSignatureContract.sign Sample.connected Sample.lease_stored
       "employee" Sample.pdf)
  = run Sample.world
      (ZKsigDigitalSignatureContract.sign Sample.connected Sample.lease_on_chain
         "employee" Sample.pdf).
Proof.
  apply (proj1 (sign_reads_four_fields Sample.world Sample.connected Sample.alice
                  Sample.lease_on_chain Sample.lease_stored "employee" Sample.pdf
                  eq_refl eq_refl) eq_refl eq_refl).
Defined.

Example exhausted_slot_is_submitted :
  map sg_identifier
    (submitted_signatures
       (trace Sample.world
          (ZKsigDigitalSignatureContract.sign Sample.connected Sample.lease_stored
             "employee" Sample.pdf)))
  = ["employee"].
Proof. reflexivity. Qed.

(** ** Where the key comes from *)

Section KeySource.
Context {L : Libraries}.
Variable w : World.

Lemma always_bind_outcome (P : Request -> Prop) {A B : Type} (p : Prog A)
    (f : A -> Prog B) :
  Forall P (trace w p) ->
  (forall a, outcome w p = Ok a -> Forall P (trace w (f a))) ->
  Forall P (trace w (bind p f)).
Proof.
  intros Hp Hf. rewrite trace_bind. apply Forall_app. split; [assumption|].
  destruct (outcome w p) as [a|]; [apply Hf; reflexivity | constructor].
Qed.

Lemma secretbox_keys_Forall (Q : bytes -> Prop) (t : list Request) :
  Forall (fun r => match r with
                   | nacl_secretbox _ _ k => Q k
                   | nacl_secretbox_open _ _ k => Q k
                   | _ => True
                   end) t ->
  Forall Q (secretbox_keys t).
Proof.
  induction 1 as [| r t Hr _ IH]; simpl; [constructor|].
  apply Forall_app. split; [|exact IH].
  destruct r; simpl in *; try constructor; auto.
Qed.

Lemma key_of_text s message sig :
  w (signer_signMessage s message) = Ok sig ->
  key_of_signature w (Uint8Array_slice0 (Buffer_from sig) 32).
Proof. intros H. left. exists s, message, sig. auto. Qed.

Lemma key_of_typed_data s domain types value sig :
  w (signer_signTypedData s domain types value) = Ok sig ->
  key_of_signature w (Uint8Array_slice0 (Buffer_from sig) 32).
Proof. intros H. right. exists s, domain, types, value, sig. auto. Qed.

Lemma key_of_encryption_message s o i c pw :
  outcome w (encrypt.getAgreementEncryptionMessage s o i c) = Ok pw ->
  key_of_signature w (Uint8Array_slice0 pw 32).
Proof.
  intros H. apply outcome_getAgreementEncryptionMessage in H.
  destruct H as (sig & Hsig & ->). exact (key_of_typed_data _ _ _ _ _ Hsig).
Qed.

Lemma key_of_class_encryption_message this agreement pw :
  outcome w (ZKsigDigitalSignatureContract.getAgreementEncryptionMessage this agreement)
    = Ok pw ->
  key_of_signature w (Uint8Array_slice0 pw 32).
Proof.
  unfold ZKsigDigitalSignatureContract.getAgreementEncryptionMessage,
    ZKsigDigitalSignatureContract._readyCheck,
    ZKsigDigitalSignatureContract.this_signer.
  destruct (contract_signer _) as [s|]; [|discriminate].
  cbn [bind]. apply key_of_encryption_message.
Qed.

End KeySource.

(** Steps to a secret box whose key was obtained on the way. *)
Ltac keyed_step :=
  first
    [ assumption
    | exact I
    | apply always_bind_outcome; [always; exact I | intros ? ?]
    | always_step ].

Section KeySourceFlows.
Context {L : Libraries}.
Variable w : World.

(** X12: In [createAgreement] and [sign], of contract.ts, of the class and of its
    earlier revision, and in the two PDF getters of the class when no key
    bytes are passed, the key of every secret-box call is the first 32 bytes
    of the text of a signature the signer gave in that world: the SDK has
    no other source of key material. *)
Theorem keys_come_from_signatures :
  (forall signer identifier pdf description,
     Forall (key_of_signature w)
       (secretbox_keys (trace w (contract.createAgreement signer identifier pdf description)))) /\
  (forall signer agreement identifier pdf,
     Forall (key_of_signature w)
       (secretbox_keys (trace w (contract.sign signer agreement identifier pdf)))) /\
  (forall this agreement,
     Forall (key_of_signature w)
       (secretbox_keys (trace w (ZKsigDigitalSignatureContract.createAgreement this agreement)))) /\
  (forall this agreement identifier pdf,
     Forall (key_of_signature w)
       (secretbox_keys
          (trace w (ZKsigDigitalSignatureContract.sign this agreement identifier pdf)))) /\
  (forall this agreement,
     Forall (key_of_signature w)
       (secretbox_keys
          (trace w (ZKsigDigitalSignatureContract.getAgreementPDF this agreement None)))) /\
  (forall this agreement packet_encryptedCid,
     Forall (key_of_signature w)
       (secretbox_keys
          (trace w (ZKsigDigitalSignatureContract.getSignaturePDF
                      this agreement packet_encryptedCid)))) /\
  (forall this agreement,
     Forall (key_of_signature w)
       (secretbox_keys (trace w (part_000.createAgreement this agreement)))) /\
  (forall this agreement identifier pdf,
     Forall (key_of_signature w)
       (secretbox_keys (trace w (part_000.sign this agreement identifier pdf)))).
Proof.
  repeat split; intros; apply secretbox_keys_Forall.
  - rewrite trace_contract_createAgreement. constructor.
  - rewrite trace_contract_sign. constructor.
  - unfold ZKsigDigitalSignatureContract.createAgreement.
    apply always_bind; [always; exact I | intros _].
    apply always_bind; [always; exact I | intros [[address c] pdf]].
    apply always_bind; [always; exact I | intros signer].
    apply always_bind_outcome; [always; exact I | intros pw Hpw].
    apply key_of_encryption_message in Hpw.
    repeat keyed_step.
  - unfold ZKsigDigitalSignatureContract.sign.
    apply always_bind; [always; exact I | intros _].
    apply always_bind; [always; exact I | intros signer].
    apply always_bind_outcome; [always; exact I | intros [address pw] Hpw].
    apply Promise_all2_ok in Hpw. destruct Hpw as (_ & Hpw).
    apply key_of_encryption_message in Hpw.
    repeat keyed_step.
  - unfold ZKsigDigitalSignatureContract.getAgreementPDF.
    apply always_bind_outcome; [always; exact I | intros pw Hpw].
    apply key_of_class_encryption_message in Hpw.
    unfold files.downloadAndDecrypt. repeat keyed_step.
  - unfold ZKsigDigitalSignatureContract.getSignaturePDF.
    apply always_bind_outcome; [always; exact I | intros pw Hpw].
    apply key_of_class_encryption_message in Hpw.
    unfold files.downloadAndDecrypt. repeat keyed_step.
  - unfold part_000.createAgreement.
    apply always_bind; [always; exact I | intros _].
    apply always_bind_outcome; [always; exact I | intros [[address pw] pdf] Hpw].
    apply Promise_all3_ok in Hpw. destruct Hpw as (_ & Hpw & _).
    unfold ZKsigDigitalSignatureContract.this_signer in Hpw.
    destruct (contract_signer _) as [s|]; [|discriminate Hpw].
    cbn [bind] in Hpw. unfold call in Hpw.
    rewrite outcome_Call, outcome_of_result in Hpw. apply key_of_text in Hpw.
    repeat keyed_step.
  - unfold part_000.sign.
    apply always_bind; [always; exact I | intros _].
    apply always_bind; [always; exact I | intros signer].
    apply always_bind_outcome; [always; exact I | intros [address pw] Hpw].
    apply Promise_all2_ok in Hpw. destruct Hpw as (_ & Hpw).
    rewrite outcome_call in Hpw. apply key_of_typed_data in Hpw.
    repeat keyed_step.
Qed.

End KeySourceFlows.

Example key_of_sample_creation :
  secretbox_keys
    (trace Sample.world (part_000.createAgreement Sample.connected Sample.lease))
  = [firstn 32 Sample.signature].
Proof. reflexivity. Qed.

(** ** What is uploaded *)

Section Uploads.
Context {L : Libraries}.
Variable w : World.

Lemma uploaded_files_Forall (Q : bytes -> Prop) (t : list Request) :
  Forall (fun r => match r with fetch_post _ file _ => Q file | _ => True end) t ->
  Forall Q (uploaded_files t).
Proof.
  induction 1 as [| r t Hr _ IH]; simpl; [constructor|].
  apply Forall_app. split; [|exact IH].
  destruct r; simpl in *; try constructor; auto.
Qed.

Lemma pinFile_uploads (Q : bytes -> Prop) file name :
  Q (snd (packToBlob file)) ->
  Forall (fun r => match r with fetch_post _ f _ => Q f | _ => True end)
    (trace w (files.pinFile file name)).
Proof. intros H. rewrite trace_pinFile. repeat constructor. exact H. Qed.

Lemma encryptAgreementAndPin_uploads (Q : bytes -> Prop) pdf name pw :
  (forall f, sealed_archive w pdf f -> Q f) ->
  Forall (fun r => match r with fetch_post _ f _ => Q f | _ => True end)
    (trace w (files.encryptAgreementAndPin pdf name pw)).
Proof.
  intros H. rewrite trace_encryptAgreementAndPin.
  constructor; [exact I|].
  destruct (w (nacl_secretbox _ _ _)) as [sealed|] eqn:Hs; [|constructor].
  repeat constructor. apply H. exists (Uint8Array_slice0 pw 32), sealed. auto.
Qed.

End Uploads.

(** Steps to an upload: the two functions of files.ts are taken whole. *)
Ltac upload_step :=
  first
    [ exact I
    | apply encryptAgreementAndPin_uploads; intros ? ?; solve [auto]
    | apply pinFile_uploads; solve [auto]
    | apply always_Promise_all3
    | apply always_Promise_all2
    | apply always_bind; [|intros]
    | always_step ].

Section UploadFlows.
Context {L : Libraries}.
Variable w : World.

(** X13: The document never leaves in clear.  Every file that [createAgreement]
    posts to the upload endpoint is the archive of a sealed box over the
    document bytes or the archive of the JSON text of the description, and
    every file that [sign] posts is the archive of a sealed box over the
    document; so it is in contract.ts, in the class and in its earlier
    revision, whatever the collaborators answer. *)
Theorem uploads_are_sealed :
  (forall signer identifier pdf description,
     Forall (fun f => sealed_archive w pdf f \/
                      f = snd (packToBlob (Buffer_from (JSON_stringify_groups description))))
       (uploaded_files (trace w (contract.createAgreement signer identifier pdf description)))) /\
  (forall signer agreement identifier pdf,
     Forall (sealed_archive w pdf)
       (uploaded_files (trace w (contract.sign signer agreement identifier pdf)))) /\
  (forall this agreement,
     Forall (fun f => (exists pdf, w (agreement_toBytes agreement) = Ok pdf /\
                                   sealed_archive w pdf f) \/
                      f = snd (packToBlob
                                 (Buffer_from (JSON_stringify_fields (getDescription agreement)))))
       (uploaded_files
          (trace w (ZKsigDigitalSignatureContract.createAgreement this agreement)))) /\
  (forall this agreement identifier pdf,
     Forall (sealed_archive w pdf)
       (uploaded_files
          (trace w (ZKsigDigitalSignatureContract.sign this agreement identifier pdf)))) /\
  (forall this agreement,
     Forall (fun f => (exists pdf, w (agreement_toBytes agreement) = Ok pdf /\
                                   sealed_archive w pdf f) \/
                      f = snd (packToBlob
                                 (Buffer_from (JSON_stringify_fields (getDescription agreement)))))
       (uploaded_files (trace w (part_000.createAgreement this agreement)))) /\
  (forall this agreement identifier pdf,
     Forall (sealed_archive w pdf)
       (uploaded_files (trace w (part_000.sign this agreement identifier pdf)))).
Proof.
  repeat split; intros; apply uploaded_files_Forall.
  - rewrite trace_contract_createAgreement. constructor.
  - rewrite trace_contract_sign. constructor.
  - unfold ZKsigDigitalSignatureContract.createAgreement.
    apply always_bind; [always; exact I | intros _].
    apply always_bind_outcome; [always; exact I | intros [[address c] pdf] H].
    apply Promise_all3_ok in H. destruct H as (_ & _ & H). rewrite outcome_call in H.
    apply always_bind; [always; exact I | intros signer].
    apply always_bind; [always; exact I | intros pw].
    apply always_bind; [|intros [e d]; always; exact I].
    apply always_Promise_all2.
    + apply encryptAgreementAndPin_uploads. intros f Hf. left. exists pdf. auto.
    + apply pinFile_uploads. right. reflexivity.
  - unfold ZKsigDigitalSignatureContract.sign. repeat upload_step.
  - unfold part_000.createAgreement.
    apply always_bind; [always; exact I | intros _].
    apply always_bind_outcome; [always; exact I | intros [[address pw] pdf] H].
    apply Promise_all3_ok in H. destruct H as (_ & _ & H). rewrite outcome_call in H.
    apply always_bind; [|intros [e d]; always; exact I].
    apply always_Promise_all2.
    + apply encryptAgreementAndPin_uploads. intros f Hf. left. exists pdf. auto.
    + apply pinFile_uploads. right. reflexivity.
  - unfold part_000.sign. repeat upload_step.
Qed.

End UploadFlows.

(** The two uploads of the sample creation. *)
Example uploads_of_sample_creation :
  uploaded_files
    (trace Sample.world
       (ZKsigDigitalSignatureContract.createAgreement Sample.connected Sample.lease))
  = [ Buffer_from "0x7d/0xa96bb1719fa7f78b8B2d3c24B%PDF-1.7 lease";
      Buffer_from "employee" ].
Proof. reflexivity. Qed.

(** ** contract.ts *)

Section ContractModule.
Context {L : Libraries}.
Variable w : World.

(** X14: Every function of contract.ts builds its contract first, with
    [new Contract("", DigitalSignature.abi)]: no signer, no provider, and an
    address that is none.  ethers refuses it, so each of the seven functions
    throws that error, whatever its arguments and whatever the collaborators
    would answer, and sends nothing: the signer is asked for no address and
    no signature, nothing is sealed or uploaded, and the ledger is neither
    read nor written. *)
Theorem contract_ts_sends_nothing :
  (forall signer,
     run w (contract.getProfile signer) = ([], Err Contract_new_error)) /\
  (forall provider address page perPage,
     run w (contract.getAgreements provider address page perPage)
       = ([], Err Contract_new_error) /\
     run w (contract.getSignatures provider address page perPage)
       = ([], Err Contract_new_error)) /\
  (forall provider address index,
     run w (contract.getAgreement provider address index) = ([], Err Contract_new_error) /\
     run w (contract.getSignature provider address index) = ([], Err Contract_new_error)) /\
  (forall signer identifier pdf description,
     run w (contract.createAgreement signer identifier pdf description)
       = ([], Err Contract_new_error)) /\
  (forall signer agreement identifier pdf,
     run w (contract.sign signer agreement identifier pdf) = ([], Err Contract_new_error)).
Proof.
  split; [|split; [|split; [|split]]]; intros.
  - apply contract_getProfile_throws.
  - split; [apply contract_getAgreements_throws | apply contract_getSignatures_throws].
  - split; [apply contract_getAgreement_throws | apply contract_getSignature_throws].
  - apply contract_createAgreement_throws.
  - apply contract_sign_throws.
Qed.

End ContractModule.

(** The call of the README. *)
Example readme_getAgreements :
  run Sample.world
    (contract.getAgreements (ProviderRef 0) "0xa96bb1719fa7f78b8B2d3c24BBc79e52Ae9a3988"
       1 (Some 10%Z))
  = ([], Err (@Contract_new_error Sample.libraries)).
Proof. reflexivity. Qed.

(** ** A sealing that fails *)

Section FailedSealing.
Context {L : Libraries}.
Variable w : World.
Import ZKsigDigitalSignatureContract.

(** X15: When the secret box refuses to seal, the class's [createAgreement] has
    already started the upload of the description: the description is pinned
    all the same, nothing is handed to the ledger, and the error is the one
    of the box. *)
Theorem createAgreement_when_sealing_fails (this : t) (agreement : ZKsigAgreement)
    (s : Signer) (address : string) (c : CID) (pdf : bytes) (sig : string) (e : exn) :
  contract_signer (_contract this) = Some s ->
  w (signer_getAddress s) = Ok address ->
  w (agreement_getCID agreement) = Ok c ->
  w (agreement_toBytes agreement) = Ok pdf ->
  w (encryption_request s address (getIdentifier agreement) (CID_toString (CID_toV1 c)))
    = Ok sig ->
  w (nacl_secretbox pdf (Uint8Array_new 24) (firstn 32 (Buffer_from sig))) = Err e ->
  uploaded_files (trace w (createAgreement this agreement))
    = [snd (packToBlob (Buffer_from (JSON_stringify_fields (getDescription agreement))))] /\
  submitted_agreements (trace w (createAgreement this agreement)) = [] /\
  outcome w (createAgreement this agreement) = Err e.
Proof.
  intros Hs Ha Hc Hpdf Hsig Hseal.
  assert (Hpw : outcome w (encrypt.getAgreementEncryptionMessage s address
                   (getIdentifier agreement) (CID_toString (CID_toV1 c)))
                = Ok (Buffer_from sig)).
  { unfold encrypt.getAgreementEncryptionMessage. prog_simpl.
    unfold encryption_request in Hsig. rewrite Hsig. reflexivity. }
  unfold createAgreement, _readyCheck, this_signer. rewrite Hs. cbn [bind].
  prog_simpl. rewrite Ha, Hc, Hpdf. prog_simpl.
  rewrite !trace_getAgreementEncryptionMessage, !Hpw. prog_simpl.
  rewrite !trace_encryptAgreementAndPin, !outcome_encryptAgreementAndPin, !trace_pinFile.
  unfold Uint8Array_slice0. rewrite !Hseal.
  repeat split; reflexivity.
Qed.

End FailedSealing.

Lemma createAgreement_when_sealing_fails_witness :
  uploaded_files
    (trace Sample.world_without_box
       (ZKsigDigitalSignatureContract.createAgreement Sample.connected Sample.lease))
  = [Buffer_from "employee"] /\
  submitted_agreements
    (trace Sample.world_without_box
       (ZKsigDigitalSignatureContract.createAgreement Sample.connected Sample.lease)) = [] /\
  outcome Sample.world_without_box
    (ZKsigDigitalSignatureContract.createAgreement Sample.connected Sample.lease)
  = Err (Error "bad key size").
Proof.
  apply (createAgreement_when_sealing_fails Sample.world_without_box Sample.connected
           Sample.lease Sample.alice "0xa96bb1719fa7f78b8B2d3c24BBc79e52Ae9a3988"
           (Buffer_from "bafy-lease") Sample.pdf
           "0x7d/0xa96bb1719fa7f78b8B2d3c24BBc79e52Ae9a3988|lease|bafy-lease|/e3b0c44298fc1c149afbf4c8996fb924");
    reflexivity.
Defined.
